(** * The S3 media handler of the Tinode chat server

    A shallow embedding of [server/media/s3/s3.go]: the configuration and
    handler records, the byte-counting reader, [Init], [Headers], [Upload]
    and [getFileRecord], followed by the properties of the request protocol.

    Everything the handler calls but does not define (the AWS SDK, the
    file-record store, the CORS policy function, the identifier codec, the
    JSON decoder, the MIME table) is collected in the record [Env]; every
    call that leaves the handler is written to a trace of [Event]s, so that
    statements of the form "no backend call is made" are statements about
    that trace. *)

From Stdlib Require Import ZArith Lia Ascii String.
From stdpp Require Import base gmap strings list.

(** ** Strings and constants *)

(** The one-character string holding a double quote (ASCII 34). *)
Definition dquote : string := String "034"%char EmptyString.

(** [`"` + s + `"`] *)
Definition quoted (s : string) : string := dquote +:+ s +:+ dquote.

Definition defaultServeURL : string := "/v0/file/s/".
Definition defaultCacheControl : string := "no-cache, must-revalidate".
Definition handlerName : string := "s3".
Definition defaultPresignDuration : Z := 120.

(** net/http method names and status codes used by the handler. *)
Definition MethodGet : string := "GET".
Definition MethodHead : string := "HEAD".
Definition MethodPost : string := "POST".
Definition MethodPut : string := "PUT".
Definition StatusNotModified : Z := 304.
Definition StatusPermanentRedirect : Z := 308.

(** Error codes of the S3 service (aws-sdk-go, service/s3/errors.go). *)
Definition ErrCodeNoSuchBucket : string := "NoSuchBucket".
Definition ErrCodeBucketAlreadyExists : string := "BucketAlreadyExists".
Definition ErrCodeBucketAlreadyOwnedByYou : string := "BucketAlreadyOwnedByYou".

(** Go's [int64] arithmetic wraps around. *)
Definition wrap64 (z : Z) : Z := ((z + 2 ^ 63) mod 2 ^ 64 - 2 ^ 63)%Z.

(** [time.Second], in nanoseconds. *)
Definition time_Second : Z := 1000000000.

(** ** Errors

    Go's [error] interface, with the dynamic types the handler tells apart:
    [awserr.Error] (recognised by the type assertion [err.(awserr.Error)]
    and inspected through [Code()]), the sentinel errors of [store/types],
    [io.EOF], and plain [errors.New] values. *)
Inductive error : Type :=
| errorString (s : string)
| awserr_Error (code message : string)
| ErrNotFound
| ErrUnsupported
| io_EOF.

#[global] Instance error_eq_dec : EqDecision error.
Proof. solve_decision. Defined.

(** [aerr, ok := err.(awserr.Error)]: the code when the assertion holds. *)
Definition awserr_Code (e : error) : option string :=
  match e with
  | awserr_Error code _ => Some code
  | _ => None
  end.

(** ** HTTP headers and URLs *)

(** [http.Header] is [map[string][]string]; a Go map value may be [nil],
    which is [None] here. *)
Abbreviation http_Header := (option (gmap string (list string))).

(** [Header.Get]: the first value stored under the key, or the empty string;
    reading a nil map is allowed.  The keys passed by the handler are already
    in canonical MIME form, so the canonicalisation step is the identity. *)
Definition Header_Get (h : http_Header) (key : string) : string :=
  match h with
  | None => EmptyString
  | Some m =>
      match m !! key with
      | Some (v :: _) => v
      | _ => EmptyString
      end
  end.

(** The two views of a [*url.URL] the handler uses: [String()] and
    [Query()]. *)
Record URL : Type := mkURL {
  URL_String : string;
  URL_Query : gmap string (list string)
}.

(** [url.Values.Get] *)
Definition Values_Get (v : gmap string (list string)) (key : string) : string :=
  match v !! key with
  | Some (x :: _) => x
  | _ => EmptyString
  end.

(** [strconv.ParseBool]: the accepted spellings of true; every other input
    yields [false] (with an error the handler discards). *)
Definition ParseBool (s : string) : bool :=
  bool_decide (s ∈ ["1"; "t"; "T"; "TRUE"; "true"; "True"]).

(** [strings.Trim] *)
Fixpoint in_cutset (c : ascii) (cutset : string) : bool :=
  match cutset with
  | EmptyString => false
  | String d rest => if Ascii.eqb c d then true else in_cutset c rest
  end.

Fixpoint TrimLeft (s cutset : string) : string :=
  match s with
  | EmptyString => EmptyString
  | String c rest => if in_cutset c cutset then TrimLeft rest cutset else s
  end.

Definition TrimRight (s cutset : string) : string :=
  String.rev (TrimLeft (String.rev s) cutset).

Definition Trim (s cutset : string) : string :=
  TrimLeft (TrimRight s cutset) cutset.

(** ** Identifiers and file records *)

(** Modelled from the spec: [types.Uid] is declared outside this package;
    the spec describes it as an opaque identifier with a null/zero value.
    It is a 64-bit unsigned number here, zero being the null identifier. *)
Definition Uid : Type := Z.

Definition ZeroUid : Uid := 0%Z.

Definition IsZero (uid : Uid) : bool := (uid =? ZeroUid)%Z.

(** Modelled from the spec: the lifecycle status of a file record
    (pending-upload / ready / unsupported). *)
Inductive UploadStatus : Type :=
| UploadPending
| UploadReady
| UploadUnsupported.

#[global] Instance UploadStatus_eq_dec : EqDecision UploadStatus.
Proof. solve_decision. Defined.

(** Modelled from the spec: [types.FileDef], the FileRecord of the external
    store, with the fields the spec lists. *)
Record FileDef : Type := mkFileDef {
  Id : string;
  User : string;
  Status : UploadStatus;
  MimeType : string;
  Location : string;
  ETag : string
}.

#[global] Instance FileDef_eq_dec : EqDecision FileDef.
Proof. solve_decision. Defined.

Definition set_Status (st : UploadStatus) (fd : FileDef) : FileDef :=
  {| Id := Id fd; User := User fd; Status := st; MimeType := MimeType fd;
     Location := Location fd; ETag := ETag fd |}.

Definition set_Location (loc : string) (fd : FileDef) : FileDef :=
  {| Id := Id fd; User := User fd; Status := Status fd; MimeType := MimeType fd;
     Location := loc; ETag := ETag fd |}.

Definition set_ETag (tag : string) (fd : FileDef) : FileDef :=
  {| Id := Id fd; User := User fd; Status := Status fd; MimeType := MimeType fd;
     Location := Location fd; ETag := tag |}.

(** ** Configuration and handler *)

Record awsconfig : Type := mkAwsconfig {
  AccessKeyId : string;
  SecretAccessKey : string;
  Region : string;
  DisableSSL : bool;
  ForcePathStyle : bool;
  Endpoint : string;
  BucketName : string;
  CorsOrigins : list string;
  ServeURL : string;
  PresignTTL : Z;
  CacheControl : string
}.

(** The zero value of [awsconfig]. *)
Definition awsconfig_zero : awsconfig :=
  {| AccessKeyId := EmptyString; SecretAccessKey := EmptyString;
     Region := EmptyString; DisableSSL := false; ForcePathStyle := false;
     Endpoint := EmptyString; BucketName := EmptyString; CorsOrigins := [];
     ServeURL := EmptyString; PresignTTL := 0; CacheControl := EmptyString |}.

Definition set_PresignTTL (ttl : Z) (c : awsconfig) : awsconfig :=
  {| AccessKeyId := AccessKeyId c; SecretAccessKey := SecretAccessKey c;
     Region := Region c; DisableSSL := DisableSSL c;
     ForcePathStyle := ForcePathStyle c; Endpoint := Endpoint c;
     BucketName := BucketName c; CorsOrigins := CorsOrigins c;
     ServeURL := ServeURL c; PresignTTL := ttl; CacheControl := CacheControl c |}.

Definition set_CacheControl (cc : string) (c : awsconfig) : awsconfig :=
  {| AccessKeyId := AccessKeyId c; SecretAccessKey := SecretAccessKey c;
     Region := Region c; DisableSSL := DisableSSL c;
     ForcePathStyle := ForcePathStyle c; Endpoint := Endpoint c;
     BucketName := BucketName c; CorsOrigins := CorsOrigins c;
     ServeURL := ServeURL c; PresignTTL := PresignTTL c; CacheControl := cc |}.

Definition set_ServeURL (u : string) (c : awsconfig) : awsconfig :=
  {| AccessKeyId := AccessKeyId c; SecretAccessKey := SecretAccessKey c;
     Region := Region c; DisableSSL := DisableSSL c;
     ForcePathStyle := ForcePathStyle c; Endpoint := Endpoint c;
     BucketName := BucketName c; CorsOrigins := CorsOrigins c;
     ServeURL := u; PresignTTL := PresignTTL c; CacheControl := CacheControl c |}.

(** [aws.Config] as [Init] fills it, the session built from it and the S3
    client built from the session. *)
Record aws_Config : Type := mkAwsConfig {
  cfg_Region : string;
  cfg_DisableSSL : bool;
  cfg_S3ForcePathStyle : bool;
  cfg_Endpoint : string;
  cfg_Credentials : string * string * string
}.

Record Session : Type := mkSession { Session_Config : aws_Config }.

Record S3 : Type := mkS3 { S3_Session : Session }.

(** [s3.New] *)
Definition s3_New (sess : Session) : S3 := {| S3_Session := sess |}.

(** [svc] is a pointer: [None] until [Init] has built the client. *)
Record awshandler : Type := mkAwshandler {
  svc : option S3;
  conf : awsconfig
}.

(** ** Requests to the backend *)

Record GetObjectInput : Type := mkGetObjectInput {
  goi_Bucket : string;
  goi_Key : string;
  goi_ResponseCacheControl : string;
  goi_ResponseContentType : string;
  goi_ResponseContentDisposition : option string
}.

Record HeadObjectInput : Type := mkHeadObjectInput {
  hoi_Bucket : string;
  hoi_Key : string
}.

(** A [*request.Request] built, but not sent, by the client. *)
Inductive Request : Type :=
| GetObjectRequest (c : S3) (input : GetObjectInput)
| HeadObjectRequest (c : S3) (input : HeadObjectInput).

Record PutBucketCorsInput : Type := mkPutBucketCorsInput {
  cors_Bucket : string;
  cors_AllowedMethods : list string;
  cors_AllowedOrigins : list string;
  cors_AllowedHeaders : list string
}.

(** [s3manager.UploadInput] without its [Body], which is passed apart. *)
Record UploadInput : Type := mkUploadInput {
  ui_CacheControl : string;
  ui_Bucket : string;
  ui_Key : string
}.

Record UploadOutput : Type := mkUploadOutput {
  uo_Location : string;
  uo_ETag : option string
}.

(** ** Readers

    Go's [io.Reader] interface: [Read] is given the length of the buffer and
    returns the bytes it stored there (their number is Go's [n]), an optional
    error, and the reader after the call. *)
Class Reader (S : Type) : Type :=
  Read : S -> nat -> (list Byte.byte * option error) * S.

(** readerCounter is a byte counter for bytes read through the io.Reader.
    (The embedded, unnamed [io.Reader] field of the Go struct is never set
    and its [Read] is hidden by the method below.) *)
Record readerCounter (S : Type) : Type := mkReaderCounter {
  count : Z;
  reader : S
}.
Arguments mkReaderCounter {S} _ _.
Arguments count {S} _.
Arguments reader {S} _.

(** Read reads the bytes and records the number of read bytes. *)
Definition readerCounter_Read {S : Type} `{Reader S}
    (rc : readerCounter S) (buf : nat)
  : (list Byte.byte * option error) * readerCounter S :=
  let '((data, err), r) := Read (reader rc) buf in
  ((data, err),
   {| count := wrap64 (count rc + Z.of_nat (length data)); reader := r |}).

#[global] Instance readerCounter_Reader {S : Type} `{Reader S}
  : Reader (readerCounter S) := readerCounter_Read.

(** A stream held in memory: what is left of it.  [Read] hands out at most
    [buf] bytes and reports [io.EOF] once nothing is left. *)
Record byteStream : Type := mkByteStream { remaining : list Byte.byte }.

#[global] Instance byteStream_Reader : Reader byteStream :=
  fun s buf =>
    match remaining s with
    | [] => (([], Some io_EOF), s)
    | _ => ((take buf (remaining s), None),
            {| remaining := drop buf (remaining s) |})
    end.

(** The transfer performed by [s3manager.Uploader.Upload], seen from the
    handler: the uploader reads its [Body] some number of times, each time
    choosing what to do next from what the read returned, and ends with the
    pair it returns. *)
Inductive UploadProc : Type :=
| UpRead (buf : nat) (k : list Byte.byte -> option error -> UploadProc)
| UpDone (result : option UploadOutput) (err : option error).

Fixpoint run_upload {S : Type} `{Reader S} (p : UploadProc) (body : S)
  : (option UploadOutput * option error) * S :=
  match p with
  | UpDone result err => ((result, err), body)
  | UpRead buf k =>
      let '((data, err), body') := Read body buf in
      run_upload (k data err) body'
  end.

(** ** The world outside the handler *)

(** What the handler calls and does not define.  The first group is the AWS
    SDK and Go's library, the second the packages [media], [store] and
    [types] of the server. *)
Record Env : Type := mkEnv {
  json_Unmarshal : string -> awsconfig -> awsconfig * option error;
  session_NewSession : aws_Config -> option Session * option error;
  s3_HeadBucket : S3 -> string -> option error;
  s3_CreateBucket : S3 -> string -> option error;
  s3_PutBucketCors : S3 -> PutBucketCorsInput -> option error;
  request_Presign : Request -> Z -> string * option error;
  s3manager_Upload : S3 -> UploadInput -> UploadProc;
  mime_ExtensionsByType : string -> list string;

  media_CORSHandler :
    string -> http_Header -> list string -> bool -> http_Header * Z;
  media_GetIdFromUrl : string -> string -> Uid;
  Uid_String : Uid -> string;
  Uid_String32 : Uid -> string;
  FileDef_Uid : FileDef -> Uid;
  store_Files_Get : string -> option FileDef * option error;
  store_Files_StartUpload : FileDef -> option error
}.

(** [err.Error()] *)
Definition error_Error (e : error) : string :=
  match e with
  | errorString s => s
  | awserr_Error code message => code +:+ ": " +:+ message
  | ErrNotFound => "not found"
  | ErrUnsupported => "unsupported"
  | io_EOF => "EOF"
  end.

(** The calls that leave the handler, in the order they are made. *)
Inductive Event : Type :=
| EvGetIdFromUrl (url prefix : string)
| EvFilesGet (id : string)
| EvFilesStartUpload (fd : FileDef)
| EvLogWarn (id : string) (err : error)
| EvPresign (req : Request) (expire : Z)
| EvUpload (input : UploadInput)
| EvNewSession (cfg : aws_Config)
| EvHeadBucket (bucket : string)
| EvCreateBucket (bucket : string)
| EvPutBucketCors (input : PutBucketCorsInput).

(** The calls addressed to the object store or its SDK client. *)
Definition is_backend (ev : Event) : bool :=
  match ev with
  | EvPresign _ _ | EvUpload _ | EvNewSession _
  | EvHeadBucket _ | EvCreateBucket _ | EvPutBucketCors _ => true
  | _ => false
  end.

(** ** The monad of handler code: a trace of calls, and Go's panics *)

Inductive Outcome (A : Type) : Type :=
| Ok (a : A)
| Panic (msg : string).
Arguments Ok {A} _.
Arguments Panic {A} _.

Definition M (A : Type) : Type := list Event -> Outcome A * list Event.

#[global] Instance M_ret : MRet M := fun A a tr => (Ok a, tr).

#[global] Instance M_bind : MBind M := fun A B k m tr =>
  match m tr with
  | (Ok a, tr') => k a tr'
  | (Panic msg, tr') => (Panic msg, tr')
  end.

Definition emit (ev : Event) : M unit := fun tr => (Ok tt, tr ++ [ev]).

Definition panic {A : Type} (msg : string) : M A := fun tr => (Panic msg, tr).

Definition nil_dereference : string :=
  "invalid memory address or nil pointer dereference".

(** Calls into the environment, each leaving its event. *)
Definition call_Files_Get (E : Env) (id : string)
  : M (option FileDef * option error) :=
  _ ← emit (EvFilesGet id); mret (store_Files_Get E id).

(** Modelled from the spec: [store.Files.StartUpload] is defined outside this
    package; it marks the record as upload-in-progress and hands it to the
    external store, whose answer it returns. *)
Definition call_Files_StartUpload (E : Env) (fd : FileDef)
  : M (FileDef * option error) :=
  _ ← emit (EvFilesStartUpload fd);
  mret (set_Status UploadPending fd, store_Files_StartUpload E fd).

Definition call_Presign (E : Env) (req : Request) (expire : Z)
  : M (string * option error) :=
  _ ← emit (EvPresign req expire); mret (request_Presign E req expire).

Definition call_NewSession (E : Env) (cfg : aws_Config)
  : M (option Session * option error) :=
  _ ← emit (EvNewSession cfg); mret (session_NewSession E cfg).

Definition call_HeadBucket (E : Env) (c : S3) (bucket : string)
  : M (option error) :=
  _ ← emit (EvHeadBucket bucket); mret (s3_HeadBucket E c bucket).

Definition call_CreateBucket (E : Env) (c : S3) (bucket : string)
  : M (option error) :=
  _ ← emit (EvCreateBucket bucket); mret (s3_CreateBucket E c bucket).

Definition call_PutBucketCors (E : Env) (c : S3) (input : PutBucketCorsInput)
  : M (option error) :=
  _ ← emit (EvPutBucketCors input); mret (s3_PutBucketCors E c input).

(** ** The handler *)

(** GetIdFromUrl converts an attahment URL to a file UID. *)
Definition GetIdFromUrl (E : Env) (ah : awshandler) (url : string) : M Uid :=
  _ ← emit (EvGetIdFromUrl url (ServeURL (conf ah)));
  mret (media_GetIdFromUrl E url (ServeURL (conf ah))).

(** getFileRecord given file ID reads file record from the database. *)
Definition getFileRecord (E : Env) (fid : Uid)
  : M (option FileDef * option error) :=
  '(fd, err) ← call_Files_Get E (Uid_String E fid);
  match err with
  | Some e => mret (None, Some e)
  | None =>
      match fd with
      | None => mret (None, Some ErrNotFound)
      | Some fd => mret (Some fd, None)
      end
  end.

(** Headers adds CORS headers and redirects GET and HEAD requests to the AWS
    server.  The first statement of the Go function assigns the headers
    returned by [media.CORSHandler] to the parameter [headers]; every later
    use of [headers] reads that value. *)
Definition Headers (E : Env) (ah : awshandler) (method : string) (url : URL)
    (headers : http_Header) (serve : bool)
  : M (http_Header * Z * option error) :=
  let '(headers, status) :=
    media_CORSHandler E method headers (CorsOrigins (conf ah)) serve in
  if negb (status =? 0)%Z || String.eqb method MethodPost
     || String.eqb method MethodPut
  then mret (headers, status, None)
  else
    fid ← GetIdFromUrl E ah (URL_String url);
    if IsZero fid then mret (None, 0%Z, Some ErrNotFound)
    else
      '(fdef, err) ← getFileRecord E fid;
      match err with
      | Some e => mret (None, 0%Z, Some e)
      | None =>
          match fdef with
          | None => panic nil_dereference
          | Some fdef =>
              if negb (String.eqb (ETag fdef) EmptyString)
                 && String.eqb (Header_Get headers "If-None-Match")
                               (dquote +:+ ETag fdef +:+ dquote)
              then
                mret (Some (<["ETag" := [dquote +:+ ETag fdef +:+ dquote] ]>
                            (<["Cache-Control" := [CacheControl (conf ah)] ]>
                             ∅)),
                      StatusNotModified, None)
              else
                awsReq ←
                  (if String.eqb method MethodGet then
                     let contentDisposition :=
                       if ParseBool (Values_Get (URL_Query url) "asatt")
                       then Some "attachment" else None in
                     match svc ah with
                     | None => panic nil_dereference
                     | Some c =>
                         mret (Some (GetObjectRequest c
                           {| goi_Bucket := BucketName (conf ah);
                              goi_Key := Uid_String32 E fid;
                              goi_ResponseCacheControl :=
                                CacheControl (conf ah);
                              goi_ResponseContentType := MimeType fdef;
                              goi_ResponseContentDisposition :=
                                contentDisposition |}))
                     end
                   else if String.eqb method MethodHead then
                     match svc ah with
                     | None => panic nil_dereference
                     | Some c =>
                         mret (Some (HeadObjectRequest c
                           {| hoi_Bucket := BucketName (conf ah);
                              hoi_Key := Uid_String32 E fid |}))
                     end
                   else mret None);
                match awsReq with
                | Some awsReq =>
                    '(url, err) ←
                      call_Presign E awsReq
                        (wrap64 (time_Second * PresignTTL (conf ah)));
                    mret (Some (<["Location" := [url] ]>
                                (<["ETag" := [dquote +:+ ETag fdef +:+ dquote] ]>
                                 (<["Content-Type" :=
                                      ["application/json; charset=utf-8"] ]>
                                  (<["Cache-Control" :=
                                       [CacheControl (conf ah)] ]> ∅)))),
                          StatusPermanentRedirect, err)
                | None => mret (None, 0%Z, None)
                end
          end
      end.

(** Upload processes request for a file upload. The file is given as
    io.Reader.  Go mutates [fdef] and the reader in place: the record and the
    reader as they are when the call returns come with the three results. *)
Definition Upload {S : Type} `{Reader S} (E : Env) (ah : awshandler)
    (fdef : FileDef) (file : S)
  : M ((string * Z * option error) * (FileDef * S)) :=
  (* Using String32 just for consistency with the file handler. *)
  let key := Uid_String32 E (FileDef_Uid E fdef) in
  '(fdef, err) ← call_Files_StartUpload E fdef;
  match err with
  | Some e =>
      _ ← emit (EvLogWarn (Id fdef) e);
      mret ((EmptyString, 0%Z, Some e), (fdef, file))
  | None =>
      let rc := {| count := 0%Z; reader := file |} in
      let input :=
        {| ui_CacheControl := CacheControl (conf ah);
           ui_Bucket := BucketName (conf ah);
           ui_Key := key |} in
      (* [uploader.Upload] is called whatever the client is; a nil client is
         dereferenced inside the call. *)
      _ ← emit (EvUpload input);
      match svc ah with
      | None => panic nil_dereference
      | Some c =>
          let '((result, err), rc) :=
            run_upload (s3manager_Upload E c input) rc in
          match err with
          | Some e => mret ((EmptyString, 0%Z, Some e), (fdef, reader rc))
          | None =>
              match result with
              | None => panic nil_dereference
              | Some result =>
                  let fname := Id fdef in
                  let ext := mime_ExtensionsByType E (MimeType fdef) in
                  let fname :=
                    match ext with
                    | e0 :: _ => fname +:+ e0
                    | [] => fname
                    end in
                  let fdef := set_Location key fdef in
                  let fdef :=
                    match uo_ETag result with
                    | Some tag => set_ETag (Trim tag dquote) fdef
                    | None => fdef
                    end in
                  mret ((ServeURL (conf ah) +:+ fname, count rc, None),
                        (fdef, reader rc))
              end
          end
      end
  end.

(** Download processes request for file download. *)
Definition Download (url : string) : option FileDef * option error :=
  (None, Some ErrUnsupported).

(** The error codes of a failed bucket creation that [Init] clears. *)
Definition benign_create_code (code : string) : bool :=
  String.eqb code ErrCodeBucketAlreadyExists
  || String.eqb code ErrCodeBucketAlreadyOwnedByYou
  || String.eqb code "OperationAborted".

(** The three defaults of [Init], in the order [Init] applies them:
    [if ah.conf.PresignTTL <= 0], [if ah.conf.CacheControl == ...],
    [if ah.conf.ServeURL == ...]. *)
Definition apply_defaults (c : awsconfig) : awsconfig :=
  let c := if (PresignTTL c <=? 0)%Z
           then set_PresignTTL defaultPresignDuration c else c in
  let c := if String.eqb (CacheControl c) EmptyString
           then set_CacheControl defaultCacheControl c else c in
  let c := if String.eqb (ServeURL c) EmptyString
           then set_ServeURL defaultServeURL c else c in
  c.

(** The [aws.Config] literal [Init] passes to [session.NewSession]. *)
Definition session_config (c : awsconfig) : aws_Config :=
  {| cfg_Region := Region c;
     cfg_DisableSSL := DisableSSL c;
     cfg_S3ForcePathStyle := ForcePathStyle c;
     cfg_Endpoint := Endpoint c;
     cfg_Credentials := (AccessKeyId c, SecretAccessKey c, EmptyString) |}.

(** Init initializes the media handler.  The handler as [Init] leaves it
    comes with the error. *)
Definition Init (E : Env) (ah : awshandler) (jsconf : string)
  : M (awshandler * option error) :=
  let '(c, err) := json_Unmarshal E jsconf (conf ah) in
  let ah := {| svc := svc ah; conf := c |} in
  match err with
  | Some e =>
      mret (ah, Some (errorString
                        ("failed to parse config: " +:+ error_Error e)))
  | None =>
      if String.eqb (AccessKeyId c) EmptyString
      then mret (ah, Some (errorString "missing Access Key ID"))
      else if String.eqb (SecretAccessKey c) EmptyString
      then mret (ah, Some (errorString "missing Secret Access Key"))
      else if String.eqb (Region c) EmptyString
      then mret (ah, Some (errorString "missing Region"))
      else if String.eqb (BucketName c) EmptyString
      then mret (ah, Some (errorString "missing Bucket"))
      else
        let c := apply_defaults c in
        let ah := {| svc := svc ah; conf := c |} in
        '(sess, err) ← call_NewSession E (session_config c);
        match err with
        | Some e => mret (ah, Some e)
        | None =>
            match sess with
            | None => panic nil_dereference
            | Some sess =>
                (* Create S3 service client *)
                let client := s3_New sess in
                let ah := {| svc := Some client; conf := c |} in
                (* Check if bucket already exists. *)
                err ← call_HeadBucket E client (BucketName c);
                match err with
                | None => (* Bucket exists *) mret (ah, None)
                | Some e =>
                    if match awserr_Code e with
                       | Some code =>
                           negb (String.eqb code ErrCodeNoSuchBucket)
                       | None => true
                       end
                    then (* Hard error. *) mret (ah, Some e)
                    else
                      (* Bucket does not exist. Create one. *)
                      err ← call_CreateBucket E client (BucketName c);
                      match err with
                      | Some e =>
                          (* Check if someone has already created a bucket
                             (possible in a cluster). *)
                          match awserr_Code e with
                          | Some code =>
                              if benign_create_code code
                              then (* Clear benign error *) mret (ah, None)
                              else mret (ah, Some e)
                          | None => mret (ah, Some e)
                          end
                      | None =>
                          (* This is a new bucket. *)
                          let origins := CorsOrigins c in
                          let origins :=
                            if (length origins =? 0)%nat
                            then origins ++ ["*"] else origins in
                          err ← call_PutBucketCors E client
                            {| cors_Bucket := BucketName c;
                               cors_AllowedMethods := [MethodGet; MethodHead];
                               cors_AllowedOrigins := origins;
                               cors_AllowedHeaders := ["*"] |};
                          mret (ah, err)
                      end
                end
            end
        end
  end.

(** ** Vocabulary of the statements *)

(** The headers of the 304 answer and of the redirect, and the request that
    is signed for a GET or a HEAD. *)
Definition not_modified_headers (ah : awshandler) (fdef : FileDef)
  : gmap string (list string) :=
  <["ETag" := [quoted (ETag fdef)] ]>
    (<["Cache-Control" := [CacheControl (conf ah)] ]> ∅).

Definition redirect_headers (ah : awshandler) (fdef : FileDef)
    (location content_type : string) : gmap string (list string) :=
  <["Location" := [location] ]>
    (<["ETag" := [quoted (ETag fdef)] ]>
      (<["Content-Type" := [content_type] ]>
        (<["Cache-Control" := [CacheControl (conf ah)] ]> ∅))).

Definition object_request (E : Env) (ah : awshandler) (c : S3)
    (method : string) (url : URL) (fid : Uid) (fdef : FileDef) : Request :=
  if String.eqb method MethodGet then
    GetObjectRequest c
      {| goi_Bucket := BucketName (conf ah);
         goi_Key := Uid_String32 E fid;
         goi_ResponseCacheControl := CacheControl (conf ah);
         goi_ResponseContentType := MimeType fdef;
         goi_ResponseContentDisposition :=
           if ParseBool (Values_Get (URL_Query url) "asatt")
           then Some "attachment" else None |}
  else
    HeadObjectRequest c
      {| hoi_Bucket := BucketName (conf ah); hoi_Key := Uid_String32 E fid |}.

Definition presign_expire (ah : awshandler) : Z :=
  wrap64 (time_Second * PresignTTL (conf ah)).

(** The test [Headers] makes before it answers 304, on the headers it is
    applied to. *)
Definition etag_matches (fdef : FileDef) (h : http_Header) : bool :=
  negb (String.eqb (ETag fdef) EmptyString)
  && String.eqb (Header_Get h "If-None-Match") (quoted (ETag fdef)).

(** The two calls by which [Headers] finds the record of a URL. *)
Definition lookup_events (E : Env) (ah : awshandler) (url : URL) (fid : Uid)
  : list Event :=
  [EvGetIdFromUrl (URL_String url) (ServeURL (conf ah));
   EvFilesGet (Uid_String E fid)].

(** The URL resolves to the identifier [fid], under which the external store
    holds the record [fd]. *)
Definition resolves_to (E : Env) (ah : awshandler) (url : URL) (fid : Uid)
    (fd : FileDef) : Prop :=
  media_GetIdFromUrl E (URL_String url) (ServeURL (conf ah)) = fid
  /\ IsZero fid = false
  /\ store_Files_Get E (Uid_String E fid) = (Some fd, None).

(** The number of bytes an upload takes out of its body. *)
Fixpoint bytes_read {S : Type} `{Reader S} (p : UploadProc) (body : S) : Z :=
  match p with
  | UpDone _ _ => 0%Z
  | UpRead buf k =>
      let '((data, err), body') := Read body buf in
      (Z.of_nat (length data) + bytes_read (k data err) body')%Z
  end.

(** The extension [Upload] appends to the name of the served file: the first
    one the MIME table lists for the type, nothing when it lists none. *)
Definition inferred_extension (E : Env) (mimeType : string) : string :=
  match mime_ExtensionsByType E mimeType with
  | e0 :: _ => e0
  | [] => EmptyString
  end.

(** The input [Upload] hands to the uploader. *)
Definition upload_input (E : Env) (ah : awshandler) (fdef : FileDef)
  : UploadInput :=
  {| ui_CacheControl := CacheControl (conf ah);
     ui_Bucket := BucketName (conf ah);
     ui_Key := Uid_String32 E (FileDef_Uid E fdef) |}.

Definition int64_range (z : Z) : Prop := (- 2 ^ 63 <= z < 2 ^ 63)%Z.

(** ** A sample deployment *)

Definition sample_conf : awsconfig :=
  {| AccessKeyId := "k"; SecretAccessKey := "s"; Region := "r";
     DisableSSL := false; ForcePathStyle := false; Endpoint := EmptyString;
     BucketName := "b"; CorsOrigins := []; ServeURL := defaultServeURL;
     PresignTTL := 120; CacheControl := defaultCacheControl |}.

Definition sample_session : Session :=
  {| Session_Config :=
       {| cfg_Region := "r"; cfg_DisableSSL := false;
          cfg_S3ForcePathStyle := false; cfg_Endpoint := EmptyString;
          cfg_Credentials := ("k", "s", EmptyString) |} |}.

Definition sample_client : S3 := s3_New sample_session.

Definition sample_handler : awshandler :=
  {| svc := Some sample_client; conf := sample_conf |}.

Definition sample_record : FileDef :=
  {| Id := "AAAAAAAAAAE"; User := "usr1"; Status := UploadReady;
     MimeType := "image/png"; Location := "aaaaaaaaaaaac"; ETag := "T" |}.

Definition sample_url : URL :=
  {| URL_String := "/v0/file/s/AAAAAAAAAAE.png"; URL_Query := ∅ |}.

(** The configuration text
    [{"bucket":"b","region":"r","access_key_id":"k","secret_access_key":"s"}]. *)
Definition sample_jsconf : string :=
  "{" +:+ quoted "bucket" +:+ ":" +:+ quoted "b" +:+ ","
  +:+ quoted "region" +:+ ":" +:+ quoted "r" +:+ ","
  +:+ quoted "access_key_id" +:+ ":" +:+ quoted "k" +:+ ","
  +:+ quoted "secret_access_key" +:+ ":" +:+ quoted "s" +:+ "}".

(** An uploader that reads its body in buffers of [buf] bytes until the body
    reports an error, and then answers [out]; it gives up after [fuel]
    reads. *)
Fixpoint drain (fuel buf : nat) (out : UploadOutput) : UploadProc :=
  match fuel with
  | O => UpDone None (Some (errorString "too large"))
  | S fuel' =>
      UpRead buf (fun _ err =>
        match err with
        | Some _ => UpDone (Some out) None
        | None => drain fuel' buf out
        end)
  end.

(** An environment with one record, stored under identifier 1, whose other
    answers are chosen by the arguments. *)
Definition sample_env (cors : http_Header * Z) (fid : Uid)
    (presign start_upload head_bucket create_bucket : option error) : Env :=
  {| json_Unmarshal := fun js c =>
       if String.eqb js sample_jsconf
       then (mkAwsconfig "k" "s" "r" false false EmptyString "b" []
               EmptyString 0 EmptyString, None)
       else (c, Some (errorString "unexpected end of JSON input"));
     session_NewSession := fun cfg => (Some {| Session_Config := cfg |}, None);
     s3_HeadBucket := fun _ _ => head_bucket;
     s3_CreateBucket := fun _ _ => create_bucket;
     s3_PutBucketCors := fun _ _ => None;
     request_Presign := fun _ _ =>
       match presign with
       | Some e => (EmptyString, Some e)
       | None => ("https://b.s3.r.amazonaws.com/aaaaaaaaaaaac?X-Amz-Expires=120",
                  None)
       end;
     s3manager_Upload := fun _ _ =>
       drain 8 4 {| uo_Location := "https://b.s3.r.amazonaws.com/aaaaaaaaaaaac";
                    uo_ETag := Some (quoted "abc") |};
     mime_ExtensionsByType := fun t =>
       if String.eqb t "image/png" then [".png"] else [];
     media_CORSHandler := fun _ _ _ _ => cors;
     media_GetIdFromUrl := fun _ _ => fid;
     Uid_String := fun u => if (u =? 1)%Z then "AAAAAAAAAAE" else "?";
     Uid_String32 := fun u => if (u =? 1)%Z then "aaaaaaaaaaaac" else "?";
     FileDef_Uid := fun _ => 1%Z;
     store_Files_Get := fun id =>
       if String.eqb id "AAAAAAAAAAE" then (Some sample_record, None)
       else (None, None);
     store_Files_StartUpload := fun _ => start_upload |}.
(** ** Batch deletion *)

Record DeleteObjectInput : Type := mkDeleteObjectInput {
  doi_Key : string;
  doi_Bucket : string
}.

(** [s3manager.BatchDeleteObject]; its zero value has a nil [Object]. *)
Record BatchDeleteObject : Type := mkBatchDeleteObject {
  bdo_Object : option DeleteObjectInput
}.

(** [s3manager.BatchDelete.Delete], run on the client of the handler over the
    objects of a [DeleteObjectsIterator]. *)
Record BatchEnv : Type := mkBatchEnv {
  s3manager_BatchDelete : option S3 -> list BatchDeleteObject -> option error
}.

Definition index_out_of_range : string := "index out of range".

(** The loop of [Delete], from index [i] on: [toDelete[i] = ...] for each
    key.  Go panics on an index outside the slice. *)
Fixpoint Delete_fill (ah : awshandler) (i : nat) (keys : list string)
    (toDelete : list BatchDeleteObject) : Outcome (list BatchDeleteObject) :=
  match keys with
  | [] => Ok toDelete
  | key :: rest =>
      if (i <? length toDelete)%nat then
        Delete_fill ah (S i) rest
          (<[i := {| bdo_Object :=
                       Some {| doi_Key := key;
                               doi_Bucket := BucketName (conf ah) |} |}]>
             toDelete)
      else Panic index_out_of_range
  end.

(** Delete deletes files from aws by provided slice of locations. *)
Definition Delete (B : BatchEnv) (ah : awshandler) (locations : list string)
  : Outcome (option error) :=
  let toDelete := replicate (length locations) {| bdo_Object := None |} in
  match Delete_fill ah 0 locations toDelete with
  | Panic msg => Panic msg
  | Ok toDelete => Ok (s3manager_BatchDelete B (svc ah) toDelete)
  end.

(** ** Further vocabulary *)

(** The object [Delete] asks to be deleted for one location. *)
Definition delete_object (ah : awshandler) (key : string) : BatchDeleteObject :=
  {| bdo_Object :=
       Some {| doi_Key := key; doi_Bucket := BucketName (conf ah) |} |}.

(** The CORS rule [Init] puts on a bucket it has created. *)
Definition cors_input (c : awsconfig) : PutBucketCorsInput :=
  {| cors_Bucket := BucketName c;
     cors_AllowedMethods := [MethodGet; MethodHead];
     cors_AllowedOrigins :=
       match CorsOrigins c with
       | [] => ["*"]
       | origins => origins
       end;
     cors_AllowedHeaders := ["*"] |}.

(** The calls of a complete run of [Init], in order. *)
Definition init_calls (c : awsconfig) : list Event :=
  [EvNewSession (session_config c);
   EvHeadBucket (BucketName c);
   EvCreateBucket (BucketName c);
   EvPutBucketCors (cors_input c)].

(** The record [Upload] hands back after a transfer that ended with the
    output [out]. *)
Definition uploaded_record (E : Env) (fdef : FileDef) (out : UploadOutput)
  : FileDef :=
  let marked := set_Status UploadPending fdef in
  let located := set_Location (Uid_String32 E (FileDef_Uid E fdef)) marked in
  match uo_ETag out with
  | Some tag => set_ETag (Trim tag dquote) located
  | None => located
  end.

(** The string of [n] double quotes. *)
Fixpoint quotes (n : nat) : string :=
  match n with
  | O => EmptyString
  | S n' => String "034"%char (quotes n')
  end.

(** The bucket and the key a request to the backend is built for. *)
Definition request_bucket (req : Request) : string :=
  match req with
  | GetObjectRequest _ input => goi_Bucket input
  | HeadObjectRequest _ input => hoi_Bucket input
  end.

Definition request_key (req : Request) : string :=
  match req with
  | GetObjectRequest _ input => goi_Key input
  | HeadObjectRequest _ input => hoi_Key input
  end.

(** A batch deleter that refuses the key [bad] and deletes everything
    else. *)
Definition sample_batch_env (bad : string) : BatchEnv :=
  {| s3manager_BatchDelete := fun _ objects =>
       if existsb (fun o =>
            match bdo_Object o with
            | Some input => String.eqb (doi_Key input) bad
            | None => true
            end) objects
       then Some (awserr_Error "BatchedDeleteIncomplete"
                    "some objects have failed to be deleted.")
       else None |}.

(** ** Properties of [Headers] *)

Ltac run_M :=
  unfold mbind, mret, M_bind, M_ret, emit, panic; cbn.

Lemma method_dec_GET_HEAD (method : string) :
  method = MethodGet \/ method = MethodHead ->
  String.eqb method MethodPost = false /\ String.eqb method MethodPut = false.
Proof. intros [-> | ->]; split; reflexivity. Qed.

Lemma etag_matches_false (fdef : FileDef) (h : http_Header) :
  ETag fdef = EmptyString \/ Header_Get h "If-None-Match" <> quoted (ETag fdef) ->
  etag_matches fdef h = false.
Proof.
  unfold etag_matches. intros [Hempty | Hne].
  - rewrite Hempty. reflexivity.
  - apply andb_false_iff. right. apply String.eqb_neq. exact Hne.
Qed.

Lemma dom_not_modified_headers (ah : awshandler) (fdef : FileDef) :
  dom (not_modified_headers ah fdef) = ({["ETag"; "Cache-Control"]} : gset string).
Proof.
  unfold not_modified_headers. rewrite !dom_insert_L, dom_empty_L. set_solver.
Qed.

Lemma dom_redirect_headers (ah : awshandler) (fdef : FileDef)
    (location content_type : string) :
  dom (redirect_headers ah fdef location content_type)
  = ({["Location"; "ETag"; "Content-Type"; "Cache-Control"]} : gset string).
Proof.
  unfold redirect_headers. rewrite !dom_insert_L, dom_empty_L. set_solver.
Qed.

Lemma lookup_redirect_headers (ah : awshandler) (fdef : FileDef)
    (location content_type : string) :
  let h := redirect_headers ah fdef location content_type in
  h !! "Location" = Some [location]
  /\ h !! "ETag" = Some [quoted (ETag fdef)]
  /\ h !! "Content-Type" = Some [content_type]
  /\ h !! "Cache-Control" = Some [CacheControl (conf ah)].
Proof.
  unfold redirect_headers. cbn zeta.
  repeat split; simplify_map_eq; reflexivity.
Qed.

Section PastCORS.
Variables (E : Env) (ah : awshandler) (method : string) (url : URL).
Variables (headers : http_Header) (serve : bool) (tr : list Event).
Variables (ch : http_Header) (fid : Uid) (fd : FileDef).

(** The CORS policy function lets the request through with status 0. *)
Hypothesis Hcors :
  media_CORSHandler E method headers (CorsOrigins (conf ah)) serve
  = (ch, 0%Z).
(** The URL resolves to the identifier [fid], under which the store holds
    the record [fd]. *)
Hypothesis Hfid :
  media_GetIdFromUrl E (URL_String url) (ServeURL (conf ah)) = fid.
Hypothesis Hnz : IsZero fid = false.
Hypothesis Hrec : store_Files_Get E (Uid_String E fid) = (Some fd, None).

(** What is left of [Headers] once the record is found. *)
Lemma Headers_found :
  String.eqb method MethodPost = false ->
  String.eqb method MethodPut = false ->
  Headers E ah method url headers serve tr =
  (if etag_matches fd ch
   then mret (Some (not_modified_headers ah fd), StatusNotModified, None)
   else
     awsReq ←
       (if String.eqb method MethodGet || String.eqb method MethodHead then
          match svc ah with
          | None => panic nil_dereference
          | Some c => mret (Some (object_request E ah c method url fid fd))
          end
        else mret None);
     match awsReq with
     | Some awsReq =>
         '(u, err) ← call_Presign E awsReq (presign_expire ah);
         mret (Some (redirect_headers ah fd u
                       "application/json; charset=utf-8"),
               StatusPermanentRedirect, err)
     | None => mret (None, 0%Z, None)
     end) (tr ++ lookup_events E ah url fid).
Proof.
  intros Hpost Hput.
  unfold Headers. rewrite Hcors, Hpost, Hput. cbn [negb orb Z.eqb].
  unfold GetIdFromUrl, getFileRecord, call_Files_Get. run_M.
  rewrite Hfid, Hnz, Hrec. cbn.
  unfold lookup_events. rewrite <- app_assoc. cbn [app].
  fold (quoted (ETag fd)). fold (etag_matches fd ch).
  destruct (etag_matches fd ch); [reflexivity |].
  unfold object_request.
  destruct (String.eqb method MethodGet); cbn [orb];
    [destruct (svc ah); reflexivity |].
  destruct (String.eqb method MethodHead);
    [destruct (svc ah); reflexivity | reflexivity].
Qed.

(** The redirect step for a GET or a HEAD: the request is signed, and
    whatever the signer returns, URL and error, goes into the answer. *)
Lemma Headers_redirect_branch (c : S3) :
  method = MethodGet \/ method = MethodHead ->
  svc ah = Some c ->
  etag_matches fd ch = false ->
  let req := object_request E ah c method url fid fd in
  let signed := request_Presign E req (presign_expire ah) in
  Headers E ah method url headers serve tr =
  (Ok (Some (redirect_headers ah fd (fst signed)
               "application/json; charset=utf-8"),
       StatusPermanentRedirect, snd signed),
   tr ++ lookup_events E ah url fid ++ [EvPresign req (presign_expire ah)]).
Proof.
  intros Hm Hsvc Hnm req signed.
  destruct (method_dec_GET_HEAD method Hm) as [Hpost Hput].
  rewrite (Headers_found Hpost Hput), Hnm, Hsvc.
  assert (Hgh : String.eqb method MethodGet || String.eqb method MethodHead
                = true)
    by (destruct Hm as [Hm | Hm]; rewrite Hm; reflexivity).
  rewrite Hgh. unfold call_Presign. run_M.
  fold req. fold signed. destruct signed as [u err]. cbn.
  rewrite <- app_assoc. reflexivity.
Qed.

(** The 304 branch: its answer has the two headers ETag and Cache-Control,
    and nothing is asked of the backend. *)
Lemma Headers_not_modified_branch :
  String.eqb method MethodPost = false ->
  String.eqb method MethodPut = false ->
  etag_matches fd ch = true ->
  Headers E ah method url headers serve tr =
  (Ok (Some (not_modified_headers ah fd), StatusNotModified, None),
   tr ++ lookup_events E ah url fid).
Proof.
  intros Hpost Hput Hm. rewrite (Headers_found Hpost Hput), Hm. reflexivity.
Qed.
End PastCORS.

(** C4.  A POST or a PUT, and every request for which the CORS policy
    function returns a nonzero status, is answered at once with the headers
    and the status the policy function computed and with no error; the trace
    is left as it was, so no identifier is resolved, no record is looked up
    and the backend is not contacted. *)
Theorem Headers_cors_only (E : Env) (ah : awshandler) (method : string)
    (url : URL) (headers : http_Header) (serve : bool) (tr : list Event)
    (ch : http_Header) (status : Z) :
  media_CORSHandler E method headers (CorsOrigins (conf ah)) serve
  = (ch, status) ->
  method = MethodPost \/ method = MethodPut \/ status <> 0%Z ->
  Headers E ah method url headers serve tr = (Ok (ch, status, None), tr).
Proof.
  intros Hcors Hcase. unfold Headers. rewrite Hcors.
  destruct Hcase as [-> | [-> | Hst]].
  - cbn. rewrite orb_true_r. reflexivity.
  - cbn. rewrite orb_true_r. reflexivity.
  - apply Z.eqb_neq in Hst. rewrite Hst. reflexivity.
Qed.

Lemma Headers_cors_only_witness :
  Headers (sample_env (None, 0%Z) 1%Z None None None None) sample_handler
    MethodPost sample_url None false []
  = (Ok (None, 0%Z, None), []).
Proof.
  apply (Headers_cors_only (sample_env (None, 0%Z) 1%Z None None None None)
           sample_handler MethodPost sample_url None false [] None 0%Z).
  - reflexivity.
  - left. reflexivity.
Defined.

(** C5.  A GET or a HEAD that passes the CORS step fails with NotFound, with
    nil headers and status 0, when the URL resolves to the zero identifier
    and when the external store has no record for the identifier. *)
Theorem Headers_not_found (E : Env) (ah : awshandler) (method : string)
    (url : URL) (headers : http_Header) (serve : bool) (tr : list Event)
    (ch : http_Header) :
  method = MethodGet \/ method = MethodHead ->
  media_CORSHandler E method headers (CorsOrigins (conf ah)) serve
  = (ch, 0%Z) ->
  let fid := media_GetIdFromUrl E (URL_String url) (ServeURL (conf ah)) in
  IsZero fid = true \/ store_Files_Get E (Uid_String E fid) = (None, None) ->
  fst (Headers E ah method url headers serve tr)
  = Ok (None, 0%Z, Some ErrNotFound).
Proof.
  intros Hm Hcors fid Hcase.
  destruct (method_dec_GET_HEAD method Hm) as [Hpost Hput].
  unfold Headers. rewrite Hcors, Hpost, Hput. cbn [negb orb Z.eqb].
  unfold GetIdFromUrl, getFileRecord, call_Files_Get. run_M. fold fid.
  destruct (IsZero fid) eqn:Hz; [reflexivity |].
  destruct Hcase as [Hcase | Hcase]; [discriminate |].
  rewrite Hcase. reflexivity.
Qed.

Lemma Headers_not_found_witness :
  fst (Headers (sample_env (None, 0%Z) 2%Z None None None None) sample_handler
         MethodGet sample_url None false [])
  = Ok (None, 0%Z, Some ErrNotFound).
Proof.
  apply (Headers_not_found (sample_env (None, 0%Z) 2%Z None None None None)
           sample_handler MethodGet sample_url None false [] None).
  - left. reflexivity.
  - reflexivity.
  - right. reflexivity.
Defined.

(** C1, as the code has it.  For a GET or a HEAD that passes the CORS step
    with status 0, resolves to an existing record and is not answered 304,
    when signing succeeds with the URL [u]: the answer is 308 with no error
    and with the four headers Location (the signed URL), ETag (the quoted
    tag), Content-Type (the fixed string application/json; charset=utf-8) and
    Cache-Control (the configured string).  The MIME type of the record is
    the response content type asked of the backend in the signed GET
    request. *)
Theorem Headers_redirect (E : Env) (ah : awshandler) (method : string)
    (url : URL) (headers : http_Header) (serve : bool) (tr : list Event)
    (ch : http_Header) (fid : Uid) (fd : FileDef) (c : S3) (u : string) :
  method = MethodGet \/ method = MethodHead ->
  svc ah = Some c ->
  media_CORSHandler E method headers (CorsOrigins (conf ah)) serve
  = (ch, 0%Z) ->
  resolves_to E ah url fid fd ->
  etag_matches fd ch = false ->
  let req := object_request E ah c method url fid fd in
  request_Presign E req (presign_expire ah) = (u, None) ->
  (exists h : gmap string (list string),
     Headers E ah method url headers serve tr
     = (Ok (Some h, StatusPermanentRedirect, None),
        tr ++ lookup_events E ah url fid ++ [EvPresign req (presign_expire ah)])
     /\ h !! "Location" = Some [u]
     /\ h !! "ETag" = Some [quoted (ETag fd)]
     /\ h !! "Content-Type" = Some ["application/json; charset=utf-8"]
     /\ h !! "Cache-Control" = Some [CacheControl (conf ah)]
     /\ dom h = {["Location"; "ETag"; "Content-Type"; "Cache-Control"]})
  /\ (method = MethodGet ->
      exists input, req = GetObjectRequest c input
        /\ goi_ResponseContentType input = MimeType fd
        /\ goi_ResponseCacheControl input = CacheControl (conf ah)).
Proof.
  intros Hm Hsvc Hcors (Hfid & Hnz & Hrec) Hnm req Hsign. split.
  - exists (redirect_headers ah fd u "application/json; charset=utf-8").
    pose proof (Headers_redirect_branch E ah method url headers serve tr ch
                  fid fd Hcors Hfid Hnz Hrec c Hm Hsvc Hnm) as Hrun.
    cbn zeta in Hrun. fold req in Hrun. rewrite Hsign in Hrun.
    pose proof (lookup_redirect_headers ah fd u
                  "application/json; charset=utf-8") as (H1 & H2 & H3 & H4).
    refine (conj Hrun (conj H1 (conj H2 (conj H3 (conj H4 _))))).
    apply dom_redirect_headers.
  - intros ->. unfold req, object_request. cbn.
    eexists. split; [reflexivity |]. split; reflexivity.
Qed.

Lemma Headers_redirect_witness :
  let E := sample_env (None, 0%Z) 1%Z None None None None in
  let req := object_request E sample_handler sample_client MethodGet
               sample_url 1%Z sample_record in
  (exists h : gmap string (list string),
     Headers E sample_handler MethodGet sample_url None false []
     = (Ok (Some h, StatusPermanentRedirect, None),
        [] ++ lookup_events E sample_handler sample_url 1%Z
           ++ [EvPresign req (presign_expire sample_handler)])
     /\ h !! "Location"
        = Some ["https://b.s3.r.amazonaws.com/aaaaaaaaaaaac?X-Amz-Expires=120"]
     /\ h !! "ETag" = Some [quoted (ETag sample_record)]
     /\ h !! "Content-Type" = Some ["application/json; charset=utf-8"]
     /\ h !! "Cache-Control" = Some [CacheControl (conf sample_handler)]
     /\ dom h = {["Location"; "ETag"; "Content-Type"; "Cache-Control"]})
  /\ (MethodGet = MethodGet ->
      exists input, req = GetObjectRequest sample_client input
        /\ goi_ResponseContentType input = MimeType sample_record
        /\ goi_ResponseCacheControl input = CacheControl (conf sample_handler)).
Proof.
  apply (Headers_redirect (sample_env (None, 0%Z) 1%Z None None None None)
           sample_handler MethodGet sample_url None false [] None 1%Z
           sample_record sample_client).
  - left. reflexivity.
  - reflexivity.
  - reflexivity.
  - repeat split.
  - reflexivity.
  - reflexivity.
Defined.

(** C1 as stated does not hold: for a GET of a record whose MIME type is
    image/png, with every premise of the claim in place, the Content-Type
    header of the 308 answer is not the MIME type of the record. *)
Lemma Headers_content_type_counterexample :
  let E := sample_env (None, 0%Z) 1%Z None None None None in
  media_CORSHandler E MethodGet None (CorsOrigins (conf sample_handler)) false
  = (None, 0%Z)
  /\ resolves_to E sample_handler sample_url 1%Z sample_record
  /\ etag_matches sample_record None = false
  /\ exists (h : gmap string (list string)) (tr' : list Event),
       Headers E sample_handler MethodGet sample_url None false []
       = (Ok (Some h, StatusPermanentRedirect, None), tr')
       /\ MimeType sample_record = "image/png"
       /\ h !! "Content-Type" <> Some [MimeType sample_record].
Proof.
  cbn zeta. split; [reflexivity |]. split; [repeat split |].
  split; [reflexivity |].
  exists (redirect_headers sample_handler sample_record
            "https://b.s3.r.amazonaws.com/aaaaaaaaaaaac?X-Amz-Expires=120"
            "application/json; charset=utf-8").
  eexists. split; [vm_compute; reflexivity |]. split; [reflexivity |].
  pose proof (lookup_redirect_headers sample_handler sample_record
                "https://b.s3.r.amazonaws.com/aaaaaaaaaaaac?X-Amz-Expires=120"
                "application/json; charset=utf-8") as (_ & _ & Hct & _).
  rewrite Hct. discriminate.
Qed.

(** C2 on the code.  When signing fails with the error [e], [Headers]
    returns [e] as its error, and with it status 308 and the full header map
    of the redirect, whose Location holds whatever string the signer
    returned: headers do accompany the error. *)
Theorem Headers_presign_error (E : Env) (ah : awshandler) (method : string)
    (url : URL) (headers : http_Header) (serve : bool) (tr : list Event)
    (ch : http_Header) (fid : Uid) (fd : FileDef) (c : S3) (u : string)
    (e : error) :
  method = MethodGet \/ method = MethodHead ->
  svc ah = Some c ->
  media_CORSHandler E method headers (CorsOrigins (conf ah)) serve
  = (ch, 0%Z) ->
  resolves_to E ah url fid fd ->
  etag_matches fd ch = false ->
  let req := object_request E ah c method url fid fd in
  request_Presign E req (presign_expire ah) = (u, Some e) ->
  exists h : gmap string (list string),
    Headers E ah method url headers serve tr
    = (Ok (Some h, StatusPermanentRedirect, Some e),
       tr ++ lookup_events E ah url fid ++ [EvPresign req (presign_expire ah)])
    /\ h !! "Location" = Some [u]
    /\ dom h = {["Location"; "ETag"; "Content-Type"; "Cache-Control"]}.
Proof.
  intros Hm Hsvc Hcors (Hfid & Hnz & Hrec) Hnm req Hsign.
  exists (redirect_headers ah fd u "application/json; charset=utf-8").
  pose proof (Headers_redirect_branch E ah method url headers serve tr ch
                fid fd Hcors Hfid Hnz Hrec c Hm Hsvc Hnm) as Hrun.
  cbn zeta in Hrun. fold req in Hrun. rewrite Hsign in Hrun.
  pose proof (lookup_redirect_headers ah fd u
                "application/json; charset=utf-8") as (H1 & _).
  refine (conj Hrun (conj H1 _)). apply dom_redirect_headers.
Qed.

Lemma Headers_presign_error_witness :
  let E := sample_env (None, 0%Z) 1%Z
             (Some (awserr_Error "NoCredentialProviders" "no valid providers"))
             None None None in
  let req := object_request E sample_handler sample_client MethodGet
               sample_url 1%Z sample_record in
  exists h : gmap string (list string),
    Headers E sample_handler MethodGet sample_url None false []
    = (Ok (Some h, StatusPermanentRedirect,
           Some (awserr_Error "NoCredentialProviders" "no valid providers")),
       [] ++ lookup_events E sample_handler sample_url 1%Z
          ++ [EvPresign req (presign_expire sample_handler)])
    /\ h !! "Location" = Some [EmptyString]
    /\ dom h = {["Location"; "ETag"; "Content-Type"; "Cache-Control"]}.
Proof.
  apply (Headers_presign_error
           (sample_env (None, 0%Z) 1%Z
              (Some (awserr_Error "NoCredentialProviders" "no valid providers"))
              None None None)
           sample_handler MethodGet sample_url None false [] None 1%Z
           sample_record sample_client).
  - left. reflexivity.
  - reflexivity.
  - reflexivity.
  - repeat split.
  - reflexivity.
  - reflexivity.
Defined.

(** C3 on the code.  The If-None-Match header that [Headers] compares with
    the quoted tag is read from the headers returned by the CORS policy
    function, which have replaced the headers of the request.  So a GET or a
    HEAD whose own If-None-Match equals the quoted, non-empty tag of the
    record is not answered 304 when the policy function does not return that
    header: the request is signed and the answer is the 308 redirect. *)
Theorem Headers_request_If_None_Match_unread (E : Env) (ah : awshandler)
    (method : string) (url : URL) (headers : http_Header) (serve : bool)
    (tr : list Event) (ch : http_Header) (fid : Uid) (fd : FileDef) (c : S3) :
  method = MethodGet \/ method = MethodHead ->
  svc ah = Some c ->
  media_CORSHandler E method headers (CorsOrigins (conf ah)) serve
  = (ch, 0%Z) ->
  resolves_to E ah url fid fd ->
  ETag fd <> EmptyString ->
  Header_Get headers "If-None-Match" = quoted (ETag fd) ->
  Header_Get ch "If-None-Match" <> quoted (ETag fd) ->
  let req := object_request E ah c method url fid fd in
  exists (h : gmap string (list string)) (err : option error),
    Headers E ah method url headers serve tr
    = (Ok (Some h, StatusPermanentRedirect, err),
       tr ++ lookup_events E ah url fid ++ [EvPresign req (presign_expire ah)])
    /\ is_Some (h !! "Location").
Proof.
  intros Hm Hsvc Hcors (Hfid & Hnz & Hrec) Htag Hreq Hch req.
  assert (Hnm : etag_matches fd ch = false)
    by (apply etag_matches_false; right; exact Hch).
  pose proof (Headers_redirect_branch E ah method url headers serve tr ch
                fid fd Hcors Hfid Hnz Hrec c Hm Hsvc Hnm) as Hrun.
  cbn zeta in Hrun. fold req in Hrun.
  eexists. eexists. split; [exact Hrun |].
  pose proof (lookup_redirect_headers ah fd
                (fst (request_Presign E req (presign_expire ah)))
                "application/json; charset=utf-8") as (H1 & _).
  rewrite H1. eexists. reflexivity.
Qed.

Lemma Headers_request_If_None_Match_unread_witness :
  let cors : http_Header := Some {["Vary" := ["Origin"] ]} in
  let E := sample_env (cors, 0%Z) 1%Z None None None None in
  let headers : http_Header := Some {["If-None-Match" := [quoted "T"] ]} in
  let req := object_request E sample_handler sample_client MethodGet
               sample_url 1%Z sample_record in
  exists (h : gmap string (list string)) (err : option error),
    Headers E sample_handler MethodGet sample_url headers false []
    = (Ok (Some h, StatusPermanentRedirect, err),
       [] ++ lookup_events E sample_handler sample_url 1%Z
          ++ [EvPresign req (presign_expire sample_handler)])
    /\ is_Some (h !! "Location").
Proof.
  apply (Headers_request_If_None_Match_unread
           (sample_env (Some {["Vary" := ["Origin"] ]}, 0%Z) 1%Z
              None None None None)
           sample_handler MethodGet sample_url
           (Some {["If-None-Match" := [quoted "T"] ]}) false []
           (Some {["Vary" := ["Origin"] ]}) 1%Z
           sample_record sample_client).
  - left. reflexivity.
  - reflexivity.
  - reflexivity.
  - repeat split.
  - discriminate.
  - reflexivity.
  - vm_compute. discriminate.
Defined.

(** C10.  For a method other than GET, HEAD, POST and PUT, when the CORS
    step yields status 0, the URL resolves to an existing record and the 304
    test fails, [Headers] returns nil headers, status 0 and no error; only
    the two lookups have been made, and nothing is signed. *)
Theorem Headers_other_method (E : Env) (ah : awshandler) (method : string)
    (url : URL) (headers : http_Header) (serve : bool) (tr : list Event)
    (ch : http_Header) (fid : Uid) (fd : FileDef) :
  method <> MethodGet -> method <> MethodHead ->
  method <> MethodPost -> method <> MethodPut ->
  media_CORSHandler E method headers (CorsOrigins (conf ah)) serve
  = (ch, 0%Z) ->
  resolves_to E ah url fid fd ->
  etag_matches fd ch = false ->
  Headers E ah method url headers serve tr
  = (Ok (None, 0%Z, None), tr ++ lookup_events E ah url fid).
Proof.
  intros Hget Hhead Hpost Hput Hcors (Hfid & Hnz & Hrec) Hnm.
  apply String.eqb_neq in Hget, Hhead, Hpost, Hput.
  rewrite (Headers_found E ah method url headers serve tr ch fid fd
             Hcors Hfid Hnz Hrec Hpost Hput).
  rewrite Hnm, Hget, Hhead. reflexivity.
Qed.

Lemma Headers_other_method_witness :
  let E := sample_env (None, 0%Z) 1%Z None None None None in
  Headers E sample_handler "DELETE" sample_url None false []
  = (Ok (None, 0%Z, None),
     [] ++ lookup_events E sample_handler sample_url 1%Z).
Proof.
  apply (Headers_other_method (sample_env (None, 0%Z) 1%Z None None None None)
           sample_handler "DELETE" sample_url None false [] None 1%Z
           sample_record).
  - discriminate.
  - discriminate.
  - discriminate.
  - discriminate.
  - reflexivity.
  - repeat split.
  - reflexivity.
Defined.

(** ** Properties of [Upload] *)

Lemma wrap64_range (z : Z) : int64_range (wrap64 z).
Proof.
  unfold int64_range, wrap64.
  pose proof (Z.mod_pos_bound (z + 2 ^ 63) (2 ^ 64)) as Hb. lia.
Qed.

Lemma wrap64_small (z : Z) : int64_range z -> wrap64 z = z.
Proof.
  unfold int64_range, wrap64. intros Hz.
  rewrite Z.mod_small by lia. lia.
Qed.

Lemma wrap64_add_l (a b : Z) : wrap64 (wrap64 a + b) = wrap64 (a + b).
Proof.
  unfold wrap64. f_equal.
  replace ((a + 2 ^ 63) mod 2 ^ 64 - 2 ^ 63 + b + 2 ^ 63)%Z
    with ((a + 2 ^ 63) mod 2 ^ 64 + b)%Z by lia.
  replace (a + b + 2 ^ 63)%Z with ((a + 2 ^ 63) + b)%Z by lia.
  apply Zplus_mod_idemp_l.
Qed.

Lemma append_empty_r (s : string) : s +:+ EmptyString = s.
Proof.
  induction s as [| c s IH]; [reflexivity |].
  change (String c (s +:+ EmptyString) = String c s). rewrite IH. reflexivity.
Qed.

(** Reading through the counter returns what reading the stream itself
    returns, leaves the stream in the same state, and adds to the counter the
    number of bytes taken. *)
Lemma run_upload_counter {S : Type} `{Reader S} (p : UploadProc) :
  forall (s : S) (c0 : Z),
    int64_range c0 ->
    run_upload p {| count := c0; reader := s |}
    = (fst (run_upload p s),
       {| count := wrap64 (c0 + bytes_read p s);
          reader := snd (run_upload p s) |}).
Proof.
  induction p as [buf k IH | result err]; intros s c0 Hc0.
  - cbn. unfold Read at 1, readerCounter_Reader, readerCounter_Read. cbn.
    destruct (Read s buf) as [[data rerr] s'].
    rewrite IH by apply wrap64_range.
    rewrite wrap64_add_l, Z.add_assoc. reflexivity.
  - cbn. rewrite Z.add_0_r, wrap64_small by exact Hc0. reflexivity.
Qed.

(** Every byte of an in-memory stream is either taken by the upload or still
    in the stream when the upload ends. *)
Lemma bytes_read_byteStream (p : UploadProc) :
  forall data : list Byte.byte,
    (bytes_read p (mkByteStream data)
     + Z.of_nat (length (remaining (snd (run_upload p (mkByteStream data)))))
     = Z.of_nat (length data))%Z.
Proof.
  induction p as [buf k IH | result err]; intros data.
  - destruct data as [| b data'].
    + pose proof (IH [] (Some io_EOF) []) as IH0.
      change (0 + bytes_read (k [] (Some io_EOF)) (mkByteStream [])
              + Z.of_nat (length (remaining (snd
                  (run_upload (k [] (Some io_EOF)) (mkByteStream [])))))
              = 0)%Z.
      change (Z.of_nat (@length Byte.byte [])) with 0%Z in IH0. lia.
    + set (data := b :: data').
      pose proof (IH (take buf data) None (drop buf data)) as IH1.
      change (Z.of_nat (length (take buf data))
              + bytes_read (k (take buf data) None) (mkByteStream (drop buf data))
              + Z.of_nat (length (remaining (snd
                  (run_upload (k (take buf data) None)
                     (mkByteStream (drop buf data))))))
              = Z.of_nat (length data))%Z.
      pose proof (take_drop buf data) as Htd.
      apply (f_equal (@length Byte.byte)) in Htd. rewrite length_app in Htd.
      lia.
  - cbn. lia.
Qed.

(** C8.  When marking the record as upload-in-progress fails with the error
    [e], [Upload] returns the empty URL, zero bytes and [e]; the store call
    and the log line are the only calls made, the uploader is never invoked
    and the stream is handed back as it was received. *)
Theorem Upload_start_failure {S : Type} `{Reader S} (E : Env)
    (ah : awshandler) (fdef : FileDef) (file : S) (tr : list Event)
    (e : error) :
  store_Files_StartUpload E fdef = Some e ->
  let made := [EvFilesStartUpload fdef; EvLogWarn (Id fdef) e] in
  Upload E ah fdef file tr
  = (Ok ((EmptyString, 0%Z, Some e), (set_Status UploadPending fdef, file)),
     tr ++ made)
  /\ Forall (fun ev => is_backend ev = false) made
  /\ forall input, EvUpload input ∉ made.
Proof.
  intros Hstart made. split; [| split].
  - unfold Upload, call_Files_StartUpload. run_M. rewrite Hstart. cbn.
    rewrite <- app_assoc. reflexivity.
  - repeat constructor.
  - intros input Hin. unfold made in Hin.
    apply elem_of_cons in Hin as [Hin | Hin]; [discriminate |].
    apply elem_of_cons in Hin as [Hin | Hin]; [discriminate |].
    by apply elem_of_nil in Hin.
Qed.

Lemma Upload_start_failure_witness :
  let E := sample_env (None, 0%Z) 1%Z None (Some (errorString "db is down"))
             None None in
  let file := mkByteStream [Byte.x01; Byte.x02; Byte.x03] in
  let made := [EvFilesStartUpload sample_record;
               EvLogWarn (Id sample_record) (errorString "db is down")] in
  Upload E sample_handler sample_record file []
  = (Ok ((EmptyString, 0%Z, Some (errorString "db is down")),
         (set_Status UploadPending sample_record, file)),
     [] ++ made)
  /\ Forall (fun ev => is_backend ev = false) made
  /\ forall input, EvUpload input ∉ made.
Proof.
  apply (Upload_start_failure
           (sample_env (None, 0%Z) 1%Z None (Some (errorString "db is down"))
              None None)
           sample_handler sample_record
           (mkByteStream [Byte.x01; Byte.x02; Byte.x03]) []
           (errorString "db is down")).
  reflexivity.
Defined.

(** *** [strings.Trim] undoes the quoting of a tag *)

Lemma append_assoc (s1 s2 s3 : string) :
  (s1 +:+ s2) +:+ s3 = s1 +:+ (s2 +:+ s3).
Proof.
  induction s1 as [| c s1 IH]; [reflexivity |].
  change (String c ((s1 +:+ s2) +:+ s3) = String c (s1 +:+ (s2 +:+ s3))).
  rewrite IH. reflexivity.
Qed.

Lemma rev_app_append (s1 s2 : string) :
  String.rev_app s1 s2 = String.rev s1 +:+ s2.
Proof.
  revert s2. induction s1 as [| c s1 IH]; intros s2; [reflexivity |].
  unfold String.rev.
  change (String.rev_app s1 (String c s2)
          = String.rev_app s1 (String c EmptyString) +:+ s2).
  rewrite (IH (String c s2)), (IH (String c EmptyString)), append_assoc.
  reflexivity.
Qed.

Lemma rev_String (c : ascii) (s : string) :
  String.rev (String c s) = String.rev s +:+ String c EmptyString.
Proof. unfold String.rev at 1. cbn. apply rev_app_append. Qed.

Lemma rev_append (s1 s2 : string) :
  String.rev (s1 +:+ s2) = String.rev s2 +:+ String.rev s1.
Proof.
  induction s1 as [| c s1 IH].
  - change (String.rev s2 = String.rev s2 +:+ EmptyString).
    symmetry. apply append_empty_r.
  - change (String.rev (String c (s1 +:+ s2))
            = String.rev s2 +:+ String.rev (String c s1)).
    rewrite !rev_String, IH, append_assoc. reflexivity.
Qed.

Lemma rev_involutive (s : string) : String.rev (String.rev s) = s.
Proof.
  induction s as [| c s IH]; [reflexivity |].
  rewrite rev_String, rev_append, IH. reflexivity.
Qed.

(** A string that does not begin with a double quote is left alone by
    [TrimLeft]. *)
Lemma TrimLeft_id (s : string) :
  (forall rest, s <> dquote +:+ rest) -> TrimLeft s dquote = s.
Proof.
  destruct s as [| c s]; [reflexivity |]. intros Hne. cbn.
  destruct (Ascii.eqb_spec c "034"%char) as [-> | _]; [| reflexivity].
  exfalso. apply (Hne s). reflexivity.
Qed.

(** For a tag that neither begins nor ends with a double quote, trimming the
    quoted tag gives the tag back: what [Upload] stores for the ETag the
    backend returns is the string [Headers] quotes again. *)
Lemma Trim_quoted (t : string) :
  (forall rest, t <> dquote +:+ rest) ->
  (forall rest, t <> rest +:+ dquote) ->
  Trim (quoted t) dquote = t.
Proof.
  intros Hfirst Hlast.
  destruct t as [| c t]; [reflexivity |].
  set (s := String c t) in *.
  unfold Trim, TrimRight, quoted.
  rewrite !rev_append.
  change (String.rev dquote) with dquote.
  rewrite append_assoc.
  change (TrimLeft (dquote +:+ String.rev s +:+ dquote) dquote)
    with (TrimLeft (String.rev s +:+ dquote) dquote).
  rewrite (TrimLeft_id (String.rev s +:+ dquote)).
  - rewrite rev_append, rev_involutive.
    change (String.rev dquote) with dquote.
    change (TrimLeft (dquote +:+ s) dquote) with (TrimLeft s dquote).
    apply TrimLeft_id. exact Hfirst.
  - intros rest Heq.
    apply (f_equal String.rev) in Heq.
    rewrite !rev_append, rev_involutive in Heq.
    change (String.rev dquote) with dquote in Heq.
    destruct (String.rev rest) as [| d r].
    + change (String "034"%char s = String "034"%char EmptyString) in Heq.
      injection Heq as Heq. unfold s in Heq. discriminate.
    + change (String "034"%char s = String d (r +:+ dquote)) in Heq.
      injection Heq as _ Heq. exact (Hlast r Heq).
Qed.

Lemma quotes_snoc (n : nat) : quotes n +:+ dquote = String "034"%char (quotes n).
Proof.
  induction n as [| n IH]; [reflexivity |].
  change (String "034"%char (quotes n +:+ dquote)
          = String "034"%char (String "034"%char (quotes n))).
  rewrite IH. reflexivity.
Qed.

Lemma rev_quotes (n : nat) : String.rev (quotes n) = quotes n.
Proof.
  induction n as [| n IH]; [reflexivity |].
  change (String.rev (String "034"%char (quotes n))
          = String "034"%char (quotes n)).
  rewrite rev_String, IH. apply quotes_snoc.
Qed.

(** [TrimLeft] takes off the leading double quotes, all of them and nothing
    else. *)
Lemma TrimLeft_spec (s : string) :
  exists n : nat,
    s = quotes n +:+ TrimLeft s dquote
    /\ forall rest, TrimLeft s dquote <> dquote +:+ rest.
Proof.
  induction s as [| c s (n & Hs & Hfirst)].
  - exists 0%nat. split; [reflexivity | intros rest; discriminate].
  - cbn [TrimLeft in_cutset dquote].
    destruct (Ascii.eqb_spec c "034"%char) as [-> | Hc].
    + exists (Datatypes.S n). split; [| exact Hfirst].
      change (String "034"%char s
              = String "034"%char (quotes n +:+ TrimLeft s dquote)).
      rewrite <- Hs. reflexivity.
    + exists 0%nat. split; [reflexivity |].
      intros rest Heq.
      change (String c s = String "034"%char rest) in Heq.
      injection Heq as Heq _. contradiction.
Qed.

(** [TrimRight] takes off the trailing double quotes, all of them and nothing
    else. *)
Lemma TrimRight_spec (s : string) :
  exists n : nat,
    s = TrimRight s dquote +:+ quotes n
    /\ forall rest, TrimRight s dquote <> rest +:+ dquote.
Proof.
  destruct (TrimLeft_spec (String.rev s)) as (n & Hs & Hfirst).
  exists n. unfold TrimRight. split.
  - apply (f_equal String.rev) in Hs.
    rewrite rev_involutive, rev_append, rev_quotes in Hs. exact Hs.
  - intros rest Heq. apply (f_equal String.rev) in Heq.
    rewrite rev_involutive, rev_append in Heq.
    change (String.rev dquote) with dquote in Heq.
    exact (Hfirst (String.rev rest) Heq).
Qed.

(** [strings.Trim] with the double quote as cutset: the string is the result
    between two runs of double quotes, and the result neither begins nor ends
    with one. *)
Lemma Trim_spec (s : string) :
  (exists a b : nat, s = quotes a +:+ Trim s dquote +:+ quotes b)
  /\ (forall rest, Trim s dquote <> dquote +:+ rest)
  /\ (forall rest, Trim s dquote <> rest +:+ dquote).
Proof.
  destruct (TrimRight_spec s) as (b & Hs & Hlast).
  destruct (TrimLeft_spec (TrimRight s dquote)) as (a & Hr & Hfirst).
  fold (Trim s dquote) in Hr, Hfirst.
  split_and!.
  - exists a, b. rewrite <- append_assoc, <- Hr. exact Hs.
  - exact Hfirst.
  - intros rest Heq. rewrite Heq, <- append_assoc in Hr.
    exact (Hlast (quotes a +:+ rest) Hr).
Qed.

(** C9.  An upload that succeeds on a stream of [N] bytes, the uploader
    having read the stream to its end, returns [N] as the number of bytes
    written and, as the URL, the configured serve-URL prefix followed by the
    identifier of the record and the extension inferred from its MIME type;
    the record comes back with the storage key as its location and, when the
    backend returned an ETag, with that ETag stripped of its surrounding
    double quotes as its tag: the returned ETag is the stored tag between two
    runs of double quotes, the stored tag neither begins nor ends with one,
    and an ETag that is [t] in double quotes is stored as [t].  ([N] is below
    2^63, the range of the counter.) *)
Theorem Upload_success (E : Env) (ah : awshandler) (fdef : FileDef)
    (data : list Byte.byte) (tr : list Event) (c : S3) (out : UploadOutput) :
  svc ah = Some c ->
  store_Files_StartUpload E fdef = None ->
  run_upload (s3manager_Upload E c (upload_input E ah fdef))
    (mkByteStream data)
  = ((Some out, None), mkByteStream []) ->
  (Z.of_nat (length data) < 2 ^ 63)%Z ->
  exists fdef' : FileDef,
    Upload E ah fdef (mkByteStream data) tr
    = (Ok ((ServeURL (conf ah) +:+ Id fdef
              +:+ inferred_extension E (MimeType fdef),
            Z.of_nat (length data), None),
           (fdef', mkByteStream [])),
       tr ++ [EvFilesStartUpload fdef; EvUpload (upload_input E ah fdef)])
    /\ Location fdef' = Uid_String32 E (FileDef_Uid E fdef)
    /\ match uo_ETag out with
       | Some tag =>
           (exists a b : nat, tag = quotes a +:+ ETag fdef' +:+ quotes b)
           /\ (forall rest, ETag fdef' <> dquote +:+ rest)
           /\ (forall rest, ETag fdef' <> rest +:+ dquote)
       | None => ETag fdef' = ETag fdef
       end
    /\ (forall t : string,
          uo_ETag out = Some (quoted t) ->
          (forall rest, t <> dquote +:+ rest) ->
          (forall rest, t <> rest +:+ dquote) ->
          ETag fdef' = t)
    /\ Id fdef' = Id fdef
    /\ MimeType fdef' = MimeType fdef.
Proof.
  intros Hsvc Hstart Hrun Hlen.
  pose proof (run_upload_counter
                (s3manager_Upload E c (upload_input E ah fdef))
                (mkByteStream data) 0%Z) as Hcount.
  pose proof (bytes_read_byteStream
                (s3manager_Upload E c (upload_input E ah fdef)) data) as Hall.
  rewrite Hrun in Hcount, Hall. cbn [fst snd remaining] in Hcount, Hall.
  change (Z.of_nat (@length Byte.byte [])) with 0%Z in Hall.
  rewrite Z.add_0_r in Hall. rewrite Hall in Hcount. cbn [Z.add] in Hcount.
  rewrite wrap64_small in Hcount by (unfold int64_range; lia).
  specialize (Hcount ltac:(unfold int64_range; lia)).
  unfold Upload, call_Files_StartUpload. run_M. rewrite Hstart, Hsvc. cbn.
  fold (upload_input E ah fdef). rewrite Hcount.
  rewrite <- app_assoc. cbn [app].
  unfold inferred_extension.
  destruct (mime_ExtensionsByType E (MimeType fdef)) as [| e0 exts];
    destruct (uo_ETag out) as [tag |];
    rewrite ?append_empty_r;
    eexists; (split; [reflexivity |]); cbn [Location ETag Id MimeType
      set_Location set_ETag set_Status];
    (split; [reflexivity |]);
    (split; [try reflexivity; apply Trim_spec |]);
    (split; [| split; reflexivity]);
    intros t Ht Hfirst Hlast; try discriminate Ht;
    injection Ht as ->; apply Trim_quoted; assumption.
Qed.

Lemma Upload_success_witness :
  let E := sample_env (None, 0%Z) 1%Z None None None None in
  let data := [Byte.x01; Byte.x02; Byte.x03; Byte.x04; Byte.x05; Byte.x06] in
  exists fdef' : FileDef,
    Upload E sample_handler sample_record (mkByteStream data) []
    = (Ok (("/v0/file/s/AAAAAAAAAAE.png", 6%Z, None),
           (fdef', mkByteStream [])),
       [EvFilesStartUpload sample_record;
        EvUpload {| ui_CacheControl := "no-cache, must-revalidate";
                    ui_Bucket := "b";
                    ui_Key := "aaaaaaaaaaaac" |}])
    /\ Location fdef' = "aaaaaaaaaaaac"
    /\ ETag fdef' = "abc"
    /\ Id fdef' = "AAAAAAAAAAE"
    /\ MimeType fdef' = "image/png".
Proof.
  intros E data.
  destruct (Upload_success E sample_handler sample_record data []
              sample_client
              {| uo_Location := "https://b.s3.r.amazonaws.com/aaaaaaaaaaaac";
                 uo_ETag := Some (quoted "abc") |}
              eq_refl eq_refl eq_refl eq_refl)
    as (fdef' & Hrun & Hloc & _ & Htag & Hid & Hmime).
  exists fdef'. split_and!.
  - exact Hrun.
  - exact Hloc.
  - apply (Htag "abc").
    + reflexivity.
    + intros rest. discriminate.
    + intros rest Heq. destruct rest as [| c1 [| c2 [| c3 [| c4 rest]]]];
        discriminate Heq.
  - exact Hid.
  - exact Hmime.
Defined.

(** [strings.Trim] on the tag of the sample upload, on a tag with no quotes
    and on one with a quote inside. *)
Example Trim_quoted_abc : Trim (quoted "abc") dquote = "abc".
Proof. reflexivity. Qed.

Example Trim_unquoted : Trim "abc-2" dquote = "abc-2".
Proof. reflexivity. Qed.

Example Trim_inner_quote :
  Trim (quoted ("a" +:+ dquote +:+ "b")) dquote = "a" +:+ dquote +:+ "b".
Proof. reflexivity. Qed.

(** ** Properties of [Init] *)

Lemma apply_defaults_positive (c : awsconfig) :
  (0 < PresignTTL (apply_defaults c))%Z
  /\ CacheControl (apply_defaults c) <> EmptyString
  /\ ServeURL (apply_defaults c) <> EmptyString.
Proof.
  unfold apply_defaults.
  destruct (PresignTTL c <=? 0)%Z eqn:Httl;
    destruct (String.eqb (CacheControl c) EmptyString) eqn:Hcc;
    destruct (String.eqb (ServeURL c) EmptyString) eqn:Hsu;
    cbn; rewrite ?Httl, ?Hcc, ?Hsu; cbn;
    rewrite ?Hcc, ?Hsu; cbn;
    try apply Z.leb_gt in Httl;
    try apply String.eqb_neq in Hcc;
    try apply String.eqb_neq in Hsu;
    repeat split; try assumption; try discriminate; try reflexivity.
Qed.

Lemma apply_defaults_unset (c : awsconfig) :
  ((PresignTTL c <= 0)%Z ->
   PresignTTL (apply_defaults c) = defaultPresignDuration)
  /\ (CacheControl c = EmptyString ->
      CacheControl (apply_defaults c) = defaultCacheControl)
  /\ (ServeURL c = EmptyString ->
      ServeURL (apply_defaults c) = defaultServeURL).
Proof.
  unfold apply_defaults.
  destruct (PresignTTL c <=? 0)%Z eqn:Httl;
    destruct (String.eqb (CacheControl c) EmptyString) eqn:Hcc;
    destruct (String.eqb (ServeURL c) EmptyString) eqn:Hsu;
    cbn; rewrite ?Httl, ?Hcc, ?Hsu; cbn;
    rewrite ?Hcc, ?Hsu; cbn;
    try apply Z.leb_gt in Httl;
    try apply String.eqb_neq in Hcc;
    try apply String.eqb_neq in Hsu;
    repeat split; intros; try reflexivity; try contradiction; try lia.
Qed.

(** The fields other than the three defaulted ones are left alone. *)
Lemma apply_defaults_frame (c : awsconfig) :
  AccessKeyId (apply_defaults c) = AccessKeyId c
  /\ SecretAccessKey (apply_defaults c) = SecretAccessKey c
  /\ Region (apply_defaults c) = Region c
  /\ BucketName (apply_defaults c) = BucketName c
  /\ CorsOrigins (apply_defaults c) = CorsOrigins c.
Proof.
  unfold apply_defaults.
  destruct (PresignTTL c <=? 0)%Z;
    cbn; destruct (String.eqb (CacheControl c) EmptyString);
    cbn; destruct (String.eqb (ServeURL c) EmptyString);
    cbn; repeat split.
Qed.

(** A successful [Init] leaves the parsed configuration with the defaults
    applied. *)
Lemma Init_success_conf (E : Env) (ah : awshandler) (jsconf : string)
    (tr tr' : list Event) (ah' : awshandler) :
  Init E ah jsconf tr = (Ok (ah', None), tr') ->
  conf ah' = apply_defaults (fst (json_Unmarshal E jsconf (conf ah))).
Proof.
  unfold Init.
  destruct (json_Unmarshal E jsconf (conf ah)) as [c0 [e |]]; cbn [fst];
    [discriminate |].
  destruct (String.eqb (AccessKeyId c0) EmptyString); [discriminate |].
  destruct (String.eqb (SecretAccessKey c0) EmptyString); [discriminate |].
  destruct (String.eqb (Region c0) EmptyString); [discriminate |].
  destruct (String.eqb (BucketName c0) EmptyString); [discriminate |].
  unfold call_NewSession, call_HeadBucket, call_CreateBucket,
    call_PutBucketCors. run_M.
  destruct (session_NewSession E (session_config (apply_defaults c0)))
    as [[sess |] [e |]]; try discriminate.
  destruct (s3_HeadBucket E (s3_New sess) (BucketName (apply_defaults c0)))
    as [e |]; [| intros [= <- _]; reflexivity].
  destruct (awserr_Code e) as [code |]; [| discriminate].
  destruct (negb (String.eqb code ErrCodeNoSuchBucket)); [discriminate |].
  destruct (s3_CreateBucket E (s3_New sess) (BucketName (apply_defaults c0)))
    as [e' |].
  - destruct (awserr_Code e') as [code' |]; [| discriminate].
    destruct (benign_create_code code'); [| discriminate].
    intros [= <- _]. reflexivity.
  - intros [= <- _]. reflexivity.
Qed.

(** C6.  After a successful [Init] the presign TTL is positive and the
    cache-control string and the serve-URL prefix are not empty; where the
    parsed configuration leaves the TTL unset or not positive it is 120,
    where it leaves cache-control unset it is no-cache, must-revalidate, and
    where it leaves the serve URL unset it is /v0/file/s/. *)
Theorem Init_effective_config (E : Env) (ah : awshandler) (jsconf : string)
    (tr tr' : list Event) (ah' : awshandler) :
  Init E ah jsconf tr = (Ok (ah', None), tr') ->
  let parsed := fst (json_Unmarshal E jsconf (conf ah)) in
  (0 < PresignTTL (conf ah'))%Z
  /\ CacheControl (conf ah') <> EmptyString
  /\ ServeURL (conf ah') <> EmptyString
  /\ ((PresignTTL parsed <= 0)%Z -> PresignTTL (conf ah') = 120%Z)
  /\ (CacheControl parsed = EmptyString ->
      CacheControl (conf ah') = "no-cache, must-revalidate")
  /\ (ServeURL parsed = EmptyString -> ServeURL (conf ah') = "/v0/file/s/").
Proof.
  intros Hinit parsed.
  rewrite (Init_success_conf E ah jsconf tr tr' ah' Hinit). fold parsed.
  pose proof (apply_defaults_positive parsed) as (H1 & H2 & H3).
  pose proof (apply_defaults_unset parsed) as (H4 & H5 & H6).
  repeat split; assumption.
Qed.

Lemma Init_effective_config_witness :
  let E := sample_env (None, 0%Z) 1%Z None None None None in
  let ah' := sample_handler in
  let parsed :=
    fst (json_Unmarshal E sample_jsconf
           (conf (mkAwshandler None awsconfig_zero))) in
  (0 < PresignTTL (conf ah'))%Z
  /\ CacheControl (conf ah') <> EmptyString
  /\ ServeURL (conf ah') <> EmptyString
  /\ ((PresignTTL parsed <= 0)%Z -> PresignTTL (conf ah') = 120%Z)
  /\ (CacheControl parsed = EmptyString ->
      CacheControl (conf ah') = "no-cache, must-revalidate")
  /\ (ServeURL parsed = EmptyString -> ServeURL (conf ah') = "/v0/file/s/").
Proof.
  apply (Init_effective_config
           (sample_env (None, 0%Z) 1%Z None None None None)
           (mkAwshandler None awsconfig_zero) sample_jsconf []
           [EvNewSession (session_config sample_conf); EvHeadBucket "b"]
           sample_handler).
  reflexivity.
Defined.

(** C7.  Once the configuration is accepted and the session is built:
    when the probe for the bucket succeeds, [Init] returns no error after the
    probe, with neither a create call nor a CORS-policy call; when the probe
    reports that there is no such bucket and creating it fails with the code
    BucketAlreadyExists, BucketAlreadyOwnedByYou or OperationAborted, [Init]
    returns no error (and sets no CORS policy); when creating it fails with
    any other error, [Init] returns that error. *)
Theorem Init_bucket_provisioning (E : Env) (ah : awshandler)
    (jsconf : string) (tr : list Event) (c0 : awsconfig) (sess : Session) :
  json_Unmarshal E jsconf (conf ah) = (c0, None) ->
  AccessKeyId c0 <> EmptyString ->
  SecretAccessKey c0 <> EmptyString ->
  Region c0 <> EmptyString ->
  BucketName c0 <> EmptyString ->
  let c := apply_defaults c0 in
  let client := s3_New sess in
  let ah' := {| svc := Some client; conf := c |} in
  session_NewSession E (session_config c) = (Some sess, None) ->
  (s3_HeadBucket E client (BucketName c) = None ->
   Init E ah jsconf tr
   = (Ok (ah', None),
      tr ++ [EvNewSession (session_config c); EvHeadBucket (BucketName c)]))
  /\ (forall (msg : string) (e : error),
        s3_HeadBucket E client (BucketName c)
        = Some (awserr_Error ErrCodeNoSuchBucket msg) ->
        s3_CreateBucket E client (BucketName c) = Some e ->
        let made := [EvNewSession (session_config c);
                     EvHeadBucket (BucketName c);
                     EvCreateBucket (BucketName c)] in
        ((exists code msg', e = awserr_Error code msg'
            /\ code ∈ ["BucketAlreadyExists"; "BucketAlreadyOwnedByYou";
                       "OperationAborted"]) ->
         Init E ah jsconf tr = (Ok (ah', None), tr ++ made))
        /\ ((forall code msg', e = awserr_Error code msg' ->
              code ∉ ["BucketAlreadyExists"; "BucketAlreadyOwnedByYou";
                      "OperationAborted"]) ->
            Init E ah jsconf tr = (Ok (ah', Some e), tr ++ made))).
Proof.
  intros Hjs Hak Hsk Hrg Hbn c client ah' Hsess.
  apply String.eqb_neq in Hak, Hsk, Hrg, Hbn.
  split.
  - intros Hhead. unfold Init. rewrite Hjs, Hak, Hsk, Hrg, Hbn. fold c.
    unfold call_NewSession, call_HeadBucket. run_M.
    rewrite Hsess. cbn. fold client. rewrite Hhead.
    rewrite <- app_assoc. reflexivity.
  - intros msg e Hhead Hcreate made.
    assert (Hinit : Init E ah jsconf tr
                    = (Ok (ah', match awserr_Code e with
                                | Some code =>
                                    if benign_create_code code
                                    then None else Some e
                                | None => Some e
                                end), tr ++ made)).
    { unfold Init. rewrite Hjs, Hak, Hsk, Hrg, Hbn. fold c.
      unfold call_NewSession, call_HeadBucket, call_CreateBucket. run_M.
      rewrite Hsess. cbn. fold client. rewrite Hhead. cbn.
      rewrite Hcreate. unfold made. rewrite <- !app_assoc. cbn [app].
      destruct (awserr_Code e) as [code |]; [| reflexivity].
      destruct (benign_create_code code); reflexivity. }
    rewrite Hinit. split.
    + intros (code & msg' & -> & Hcode). cbn.
      assert (Hb : benign_create_code code = true).
      { repeat (apply elem_of_cons in Hcode as [-> | Hcode];
                [reflexivity |]).
        by apply elem_of_nil in Hcode. }
      rewrite Hb. reflexivity.
    + intros Hother.
      destruct e as [s | code msg' | | |]; cbn; try reflexivity.
      assert (Hb : benign_create_code code = false).
      { specialize (Hother code msg' eq_refl).
        unfold benign_create_code, ErrCodeBucketAlreadyExists,
          ErrCodeBucketAlreadyOwnedByYou.
        destruct (String.eqb_spec code "BucketAlreadyExists") as [-> | _];
          [exfalso; apply Hother; set_solver |].
        destruct (String.eqb_spec code "BucketAlreadyOwnedByYou")
          as [-> | _]; [exfalso; apply Hother; set_solver |].
        destruct (String.eqb_spec code "OperationAborted") as [-> | _];
          [exfalso; apply Hother; set_solver |].
        reflexivity. }
      rewrite Hb. reflexivity.
Qed.

Lemma Init_bucket_provisioning_witness :
  let fresh := mkAwshandler None awsconfig_zero in
  let missing := awserr_Error ErrCodeNoSuchBucket "The bucket does not exist" in
  let owned := awserr_Error "BucketAlreadyOwnedByYou" "already owned" in
  let denied := awserr_Error "AccessDenied" "Access Denied" in
  let session := [EvNewSession (session_config sample_conf)] in
  Init (sample_env (None, 0%Z) 1%Z None None None None) fresh sample_jsconf []
  = (Ok (sample_handler, None), [] ++ session ++ [EvHeadBucket "b"])
  /\ Init (sample_env (None, 0%Z) 1%Z None None (Some missing) (Some owned))
       fresh sample_jsconf []
     = (Ok (sample_handler, None),
        [] ++ session ++ [EvHeadBucket "b"; EvCreateBucket "b"])
  /\ Init (sample_env (None, 0%Z) 1%Z None None (Some missing) (Some denied))
       fresh sample_jsconf []
     = (Ok (sample_handler, Some denied),
        [] ++ session ++ [EvHeadBucket "b"; EvCreateBucket "b"]).
Proof.
  intros fresh missing owned denied session.
  pose (c0 := mkAwsconfig "k" "s" "r" false false EmptyString "b" []
                EmptyString 0 EmptyString).
  split; [| split].
  - apply (proj1 (Init_bucket_provisioning
                    (sample_env (None, 0%Z) 1%Z None None None None)
                    fresh sample_jsconf [] c0 sample_session
                    eq_refl ltac:(discriminate) ltac:(discriminate)
                    ltac:(discriminate) ltac:(discriminate) eq_refl)).
    reflexivity.
  - apply (proj1 (proj2 (Init_bucket_provisioning
                    (sample_env (None, 0%Z) 1%Z None None (Some missing)
                       (Some owned))
                    fresh sample_jsconf [] c0 sample_session
                    eq_refl ltac:(discriminate) ltac:(discriminate)
                    ltac:(discriminate) ltac:(discriminate) eq_refl)
                  "The bucket does not exist" owned eq_refl eq_refl)).
    exists "BucketAlreadyOwnedByYou", "already owned".
    split; [reflexivity | set_solver].
  - apply (proj2 (proj2 (Init_bucket_provisioning
                    (sample_env (None, 0%Z) 1%Z None None (Some missing)
                       (Some denied))
                    fresh sample_jsconf [] c0 sample_session
                    eq_refl ltac:(discriminate) ltac:(discriminate)
                    ltac:(discriminate) ltac:(discriminate) eq_refl)
                  "The bucket does not exist" denied eq_refl eq_refl)).
    intros code msg' Heq.
    assert (code = "AccessDenied") as -> by (unfold denied in Heq; congruence).
    intros Hin.
    repeat (apply elem_of_cons in Hin as [Hin | Hin]; [discriminate |]).
    by apply elem_of_nil in Hin.
Defined.

(** ** Further properties of [getFileRecord] and [Headers] *)

(** X1.  [getFileRecord] reads the store once, under the [String] form of the
    identifier, and returns either a record and no error or no record and an
    error, whatever the store answers: a store error wins over a record that
    comes with it, and the answer (nil, nil) becomes ErrNotFound. *)
Theorem getFileRecord_exclusive (E : Env) (fid : Uid) (tr : list Event) :
  exists r : option FileDef * option error,
    getFileRecord E fid tr = (Ok r, tr ++ [EvFilesGet (Uid_String E fid)])
    /\ ((exists fd, r = (Some fd, None)
                    /\ store_Files_Get E (Uid_String E fid) = (Some fd, None))
        \/ (exists e, r = (None, Some e)
                      /\ (snd (store_Files_Get E (Uid_String E fid)) = Some e
                          \/ (store_Files_Get E (Uid_String E fid) = (None, None)
                              /\ e = ErrNotFound)))).
Proof.
  unfold getFileRecord, call_Files_Get. run_M.
  destruct (store_Files_Get E (Uid_String E fid)) as [[fd |] [e |]]; cbn;
    eexists; (split; [reflexivity |]).
  - right. exists e. split; [reflexivity |]. left. reflexivity.
  - left. exists fd. split; reflexivity.
  - right. exists e. split; [reflexivity |]. left. reflexivity.
  - right. exists ErrNotFound. split; [reflexivity |]. right. split; reflexivity.
Qed.

(** X2.  When the store answers the lookup with an error, [Headers] returns
    that error with nil headers and status 0, even if a record came with the
    error; nothing is signed. *)
Theorem Headers_store_error (E : Env) (ah : awshandler) (method : string)
    (url : URL) (headers : http_Header) (serve : bool) (tr : list Event)
    (ch : http_Header) (fd : option FileDef) (e : error) :
  method <> MethodPost -> method <> MethodPut ->
  media_CORSHandler E method headers (CorsOrigins (conf ah)) serve
  = (ch, 0%Z) ->
  let fid := media_GetIdFromUrl E (URL_String url) (ServeURL (conf ah)) in
  IsZero fid = false ->
  store_Files_Get E (Uid_String E fid) = (fd, Some e) ->
  Headers E ah method url headers serve tr
  = (Ok (None, 0%Z, Some e), tr ++ lookup_events E ah url fid).
Proof.
  intros Hpost Hput Hcors fid Hnz Hget.
  apply String.eqb_neq in Hpost, Hput.
  unfold Headers. rewrite Hcors, Hpost, Hput. cbn [negb orb Z.eqb].
  unfold GetIdFromUrl, getFileRecord, call_Files_Get. run_M. fold fid.
  rewrite Hnz, Hget. cbn. unfold lookup_events.
  rewrite <- app_assoc. reflexivity.
Qed.

Lemma Headers_store_error_witness :
  let E := mkEnv
    (json_Unmarshal (sample_env (None, 0%Z) 1%Z None None None None))
    (session_NewSession (sample_env (None, 0%Z) 1%Z None None None None))
    (fun _ _ => None) (fun _ _ => None) (fun _ _ => None)
    (fun _ _ => (EmptyString, None))
    (s3manager_Upload (sample_env (None, 0%Z) 1%Z None None None None))
    (fun _ => [])
    (fun _ _ _ _ => (None, 0%Z)) (fun _ _ => 1%Z)
    (fun _ => "AAAAAAAAAAE") (fun _ => "aaaaaaaaaaaac") (fun _ => 1%Z)
    (fun _ => (Some sample_record, Some (errorString "connection reset")))
    (fun _ => None) in
  Headers E sample_handler MethodGet sample_url None false []
  = (Ok (None, 0%Z, Some (errorString "connection reset")),
     [] ++ lookup_events E sample_handler sample_url 1%Z).
Proof.
  intros E.
  apply (Headers_store_error E sample_handler MethodGet sample_url None false
           [] None (Some sample_record) (errorString "connection reset")).
  - discriminate.
  - discriminate.
  - reflexivity.
  - reflexivity.
  - reflexivity.
Defined.

(** X3.  When the 304 test of [Headers] succeeds, the answer is 304 with no
    error and with exactly the two headers ETag (the quoted tag) and
    Cache-Control (the configured string), so without Location; this holds
    for every method other than POST and PUT, needs no S3 client, and nothing
    is signed. *)
Theorem Headers_not_modified (E : Env) (ah : awshandler) (method : string)
    (url : URL) (headers : http_Header) (serve : bool) (tr : list Event)
    (ch : http_Header) (fid : Uid) (fd : FileDef) :
  method <> MethodPost -> method <> MethodPut ->
  media_CORSHandler E method headers (CorsOrigins (conf ah)) serve
  = (ch, 0%Z) ->
  resolves_to E ah url fid fd ->
  etag_matches fd ch = true ->
  exists h : gmap string (list string),
    Headers E ah method url headers serve tr
    = (Ok (Some h, StatusNotModified, None), tr ++ lookup_events E ah url fid)
    /\ h !! "ETag" = Some [quoted (ETag fd)]
    /\ h !! "Cache-Control" = Some [CacheControl (conf ah)]
    /\ h !! "Location" = None
    /\ dom h = {["ETag"; "Cache-Control"]}.
Proof.
  intros Hpost Hput Hcors (Hfid & Hnz & Hrec) Hm.
  apply String.eqb_neq in Hpost, Hput.
  exists (not_modified_headers ah fd). split.
  - apply (Headers_not_modified_branch E ah method url headers serve tr ch
             fid fd Hcors Hfid Hnz Hrec Hpost Hput Hm).
  - split_and!; [unfold not_modified_headers; simplify_map_eq; reflexivity ..
                | apply dom_not_modified_headers].
Qed.

Lemma Headers_not_modified_witness :
  let cors : http_Header := Some {["If-None-Match" := [quoted "T"] ]} in
  let E := sample_env (cors, 0%Z) 1%Z None None None None in
  let ah := mkAwshandler None sample_conf in
  exists h : gmap string (list string),
    Headers E ah "DELETE" sample_url None false []
    = (Ok (Some h, StatusNotModified, None),
       [] ++ lookup_events E ah sample_url 1%Z)
    /\ h !! "ETag" = Some [quoted (ETag sample_record)]
    /\ h !! "Cache-Control" = Some [CacheControl (conf ah)]
    /\ h !! "Location" = None
    /\ dom h = {["ETag"; "Cache-Control"]}.
Proof.
  apply (Headers_not_modified
           (sample_env (Some {["If-None-Match" := [quoted "T"] ]}, 0%Z) 1%Z
              None None None None)
           (mkAwshandler None sample_conf) "DELETE" sample_url None false []
           (Some {["If-None-Match" := [quoted "T"] ]}) 1%Z sample_record).
  - discriminate.
  - discriminate.
  - reflexivity.
  - repeat split.
  - vm_compute. reflexivity.
Defined.

(** X4.  On a handler whose S3 client is set, [Headers] never panics: for
    every method, URL, CORS answer and store answer it returns headers, a
    status and an error value. *)
Theorem Headers_no_panic (E : Env) (ah : awshandler) (method : string)
    (url : URL) (headers : http_Header) (serve : bool) (tr : list Event)
    (c : S3) :
  svc ah = Some c ->
  exists (r : http_Header * Z * option error) (tr' : list Event),
    Headers E ah method url headers serve tr = (Ok r, tr').
Proof.
  intros Hsvc. unfold Headers.
  destruct (media_CORSHandler E method headers (CorsOrigins (conf ah)) serve)
    as [ch status].
  destruct (negb (status =? 0)%Z || String.eqb method MethodPost
            || String.eqb method MethodPut); [eauto |].
  unfold GetIdFromUrl, getFileRecord, call_Files_Get, call_Presign. run_M.
  rewrite Hsvc.
  destruct (IsZero _); [eauto |].
  destruct (store_Files_Get E _) as [[fd |] [e |]]; cbn; eauto.
  destruct (negb (String.eqb (ETag fd) EmptyString) && _); [eauto |].
  destruct (String.eqb method MethodGet); cbn.
  - destruct (request_Presign E _ _); eauto.
  - destruct (String.eqb method MethodHead); cbn; [| eauto].
    destruct (request_Presign E _ _); eauto.
Qed.

Lemma Headers_no_panic_witness :
  exists (r : http_Header * Z * option error) (tr' : list Event),
    Headers (sample_env (None, 0%Z) 1%Z None None None None) sample_handler
      "OPTIONS" sample_url None true []
    = (Ok r, tr').
Proof.
  apply (Headers_no_panic (sample_env (None, 0%Z) 1%Z None None None None)
           sample_handler "OPTIONS" sample_url None true [] sample_client).
  reflexivity.
Defined.

(** X5.  The calls of [Headers], for every input: none at all, or the
    identifier resolution alone, or the resolution and one store read, or
    these two followed by one signing; a request is signed only for GET and
    HEAD, and no other call reaches the backend. *)
Theorem Headers_calls (E : Env) (ah : awshandler) (method : string)
    (url : URL) (headers : http_Header) (serve : bool) (tr : list Event) :
  let fid := media_GetIdFromUrl E (URL_String url) (ServeURL (conf ah)) in
  exists evs : list Event,
    snd (Headers E ah method url headers serve tr) = tr ++ evs
    /\ (evs = []
        \/ evs = [EvGetIdFromUrl (URL_String url) (ServeURL (conf ah))]
        \/ evs = lookup_events E ah url fid
        \/ exists req,
             (method = MethodGet \/ method = MethodHead)
             /\ evs = lookup_events E ah url fid
                      ++ [EvPresign req (presign_expire ah)]).
Proof.
  intros fid.
  set (resolved := EvGetIdFromUrl (URL_String url) (ServeURL (conf ah))).
  assert (Hgen : forall t : list Event,
    t = tr \/ t = tr ++ [resolved]
    \/ t = (tr ++ [resolved]) ++ [EvFilesGet (Uid_String E fid)]
    \/ (exists req, (method = MethodGet \/ method = MethodHead)
          /\ t = ((tr ++ [resolved]) ++ [EvFilesGet (Uid_String E fid)])
                 ++ [EvPresign req (presign_expire ah)]) ->
    exists evs : list Event,
      t = tr ++ evs
      /\ (evs = [] \/ evs = [resolved] \/ evs = lookup_events E ah url fid
          \/ exists req,
               (method = MethodGet \/ method = MethodHead)
               /\ evs = lookup_events E ah url fid
                        ++ [EvPresign req (presign_expire ah)])).
  { unfold lookup_events. fold resolved.
    intros t [-> | [-> | [-> | (req & Hm & ->)]]].
    - exists []. rewrite app_nil_r. auto.
    - eexists. split; [reflexivity | auto].
    - eexists. rewrite <- app_assoc. split; [reflexivity | auto].
    - eexists. rewrite <- !app_assoc. split; [reflexivity |].
      right; right; right. exists req. auto. }
  apply Hgen. clear Hgen. unfold Headers.
  destruct (media_CORSHandler E method headers (CorsOrigins (conf ah)) serve)
    as [ch status].
  destruct (negb (status =? 0)%Z || String.eqb method MethodPost
            || String.eqb method MethodPut); [left; reflexivity |].
  unfold GetIdFromUrl, getFileRecord, call_Files_Get, call_Presign. run_M.
  fold fid resolved.
  destruct (IsZero fid); [right; left; reflexivity |].
  destruct (store_Files_Get E (Uid_String E fid)) as [[fd |] [e |]]; cbn;
    try (right; right; left; reflexivity).
  destruct (negb (String.eqb (ETag fd) EmptyString) && _);
    [right; right; left; reflexivity |].
  destruct (String.eqb_spec method MethodGet) as [Hget | _]; cbn.
  - destruct (svc ah) as [c |]; cbn; [| right; right; left; reflexivity].
    destruct (request_Presign E _ _). cbn. fold (presign_expire ah).
    right; right; right. eexists. split; [left; exact Hget | reflexivity].
  - destruct (String.eqb_spec method MethodHead) as [Hhead | _]; cbn;
      [| right; right; left; reflexivity].
    destruct (svc ah) as [c |]; cbn; [| right; right; left; reflexivity].
    destruct (request_Presign E _ _). cbn. fold (presign_expire ah).
    right; right; right. eexists. split; [right; exact Hhead | reflexivity].
Qed.

(** X6.  For a GET that is redirected, the signed request is a GetObject
    request for the configured bucket under the [String32] form of the
    identifier; it asks for the attachment content disposition exactly when
    the first value of the query parameter asatt is one of 1, t, T, TRUE,
    true, True, and for none when the parameter is missing. *)
Theorem Headers_attachment (E : Env) (ah : awshandler) (url : URL)
    (headers : http_Header) (serve : bool) (tr : list Event)
    (ch : http_Header) (fid : Uid) (fd : FileDef) (c : S3) :
  svc ah = Some c ->
  media_CORSHandler E MethodGet headers (CorsOrigins (conf ah)) serve
  = (ch, 0%Z) ->
  resolves_to E ah url fid fd ->
  etag_matches fd ch = false ->
  exists input : GetObjectInput,
    snd (Headers E ah MethodGet url headers serve tr)
    = tr ++ lookup_events E ah url fid
         ++ [EvPresign (GetObjectRequest c input) (presign_expire ah)]
    /\ goi_Bucket input = BucketName (conf ah)
    /\ goi_Key input = Uid_String32 E fid
    /\ (goi_ResponseContentDisposition input = Some "attachment"
        <-> Values_Get (URL_Query url) "asatt"
            ∈ ["1"; "t"; "T"; "TRUE"; "true"; "True"])
    /\ (goi_ResponseContentDisposition input = None
        <-> Values_Get (URL_Query url) "asatt"
            ∉ ["1"; "t"; "T"; "TRUE"; "true"; "True"])
    /\ (URL_Query url !! "asatt" = None ->
        goi_ResponseContentDisposition input = None).
Proof.
  intros Hsvc Hcors (Hfid & Hnz & Hrec) Hnm.
  pose proof (Headers_redirect_branch E ah MethodGet url headers serve tr ch
                fid fd Hcors Hfid Hnz Hrec c (or_introl eq_refl) Hsvc Hnm)
    as Hrun.
  cbn zeta in Hrun. rewrite Hrun. cbn [snd].
  unfold object_request. cbn [String.eqb Ascii.eqb Bool.eqb MethodGet].
  eexists. split; [reflexivity |]. cbn.
  split; [reflexivity |]. split; [reflexivity |].
  unfold ParseBool.
  split; [| split].
  - case_bool_decide as Hin; split; intros H; try assumption;
      try reflexivity; try discriminate. contradiction.
  - case_bool_decide as Hin; split; intros H; try assumption;
      try reflexivity; try discriminate. contradiction.
  - intros Hmiss. unfold Values_Get. rewrite Hmiss.
    case_bool_decide as Hin; [| reflexivity].
    exfalso. revert Hin.
    repeat (rewrite elem_of_cons). rewrite elem_of_nil.
    intros [H | [H | [H | [H | [H | [H | H]]]]]]; try discriminate H.
    exact H.
Qed.

Lemma Headers_attachment_witness :
  let E := sample_env (None, 0%Z) 1%Z None None None None in
  let url := {| URL_String := "/v0/file/s/AAAAAAAAAAE.png?asatt=1";
                URL_Query := {["asatt" := ["1"] ]} |} in
  exists input : GetObjectInput,
    snd (Headers E sample_handler MethodGet url None false [])
    = [] ++ lookup_events E sample_handler url 1%Z
         ++ [EvPresign (GetObjectRequest sample_client input)
               (presign_expire sample_handler)]
    /\ goi_Bucket input = BucketName (conf sample_handler)
    /\ goi_Key input = Uid_String32 E 1%Z
    /\ (goi_ResponseContentDisposition input = Some "attachment"
        <-> Values_Get (URL_Query url) "asatt"
            ∈ ["1"; "t"; "T"; "TRUE"; "true"; "True"])
    /\ (goi_ResponseContentDisposition input = None
        <-> Values_Get (URL_Query url) "asatt"
            ∉ ["1"; "t"; "T"; "TRUE"; "true"; "True"])
    /\ (URL_Query url !! "asatt" = None ->
        goi_ResponseContentDisposition input = None).
Proof.
  apply (Headers_attachment (sample_env (None, 0%Z) 1%Z None None None None)
           sample_handler
           {| URL_String := "/v0/file/s/AAAAAAAAAAE.png?asatt=1";
              URL_Query := {["asatt" := ["1"] ]} |}
           None false [] None 1%Z sample_record sample_client).
  - reflexivity.
  - reflexivity.
  - repeat split.
  - reflexivity.
Defined.

Lemma wrap64_exact_iff (z : Z) : wrap64 z = z <-> int64_range z.
Proof.
  split.
  - intros Heq. rewrite <- Heq. apply wrap64_range.
  - apply wrap64_small.
Qed.

(** X7.  The signing of a redirect is asked to expire after
    [time.Second * PresignTTL], an [int64] product: it is the configured
    number of seconds, in nanoseconds, exactly when that number lies between
    -9223372036 and 9223372036; beyond, the product wraps around. *)
Theorem Headers_presign_expiry (E : Env) (ah : awshandler) (method : string)
    (url : URL) (headers : http_Header) (serve : bool) (tr : list Event)
    (ch : http_Header) (fid : Uid) (fd : FileDef) (c : S3) :
  method = MethodGet \/ method = MethodHead ->
  svc ah = Some c ->
  media_CORSHandler E method headers (CorsOrigins (conf ah)) serve
  = (ch, 0%Z) ->
  resolves_to E ah url fid fd ->
  etag_matches fd ch = false ->
  exists (req : Request) (expire : Z),
    snd (Headers E ah method url headers serve tr)
    = tr ++ lookup_events E ah url fid ++ [EvPresign req expire]
    /\ (- 2 ^ 63 <= expire < 2 ^ 63)%Z
    /\ (expire = (PresignTTL (conf ah) * 1000000000)%Z
        <-> (- 9223372036 <= PresignTTL (conf ah) <= 9223372036)%Z).
Proof.
  intros Hm Hsvc Hcors (Hfid & Hnz & Hrec) Hnm.
  pose proof (Headers_redirect_branch E ah method url headers serve tr ch
                fid fd Hcors Hfid Hnz Hrec c Hm Hsvc Hnm) as Hrun.
  cbn zeta in Hrun. rewrite Hrun. cbn [snd].
  eexists. exists (presign_expire ah). split; [reflexivity |].
  unfold presign_expire, time_Second.
  split; [apply wrap64_range |].
  rewrite (Z.mul_comm (PresignTTL (conf ah))).
  rewrite wrap64_exact_iff. unfold int64_range. lia.
Qed.

Lemma Headers_presign_expiry_witness :
  let E := sample_env (None, 0%Z) 1%Z None None None None in
  exists (req : Request) (expire : Z),
    snd (Headers E sample_handler MethodHead sample_url None false [])
    = [] ++ lookup_events E sample_handler sample_url 1%Z
         ++ [EvPresign req expire]
    /\ (- 2 ^ 63 <= expire < 2 ^ 63)%Z
    /\ (expire = (PresignTTL (conf sample_handler) * 1000000000)%Z
        <-> (- 9223372036 <= PresignTTL (conf sample_handler)
             <= 9223372036)%Z).
Proof.
  apply (Headers_presign_expiry
           (sample_env (None, 0%Z) 1%Z None None None None)
           sample_handler MethodHead sample_url None false [] None 1%Z
           sample_record sample_client).
  - right. reflexivity.
  - reflexivity.
  - reflexivity.
  - repeat split.
  - reflexivity.
Defined.

(** ** Further properties of [readerCounter] and [Upload] *)

Lemma bytes_read_nonneg {S : Type} `{Reader S} (p : UploadProc) :
  forall s : S, (0 <= bytes_read p s)%Z.
Proof.
  induction p as [buf k IH | result err]; intros s; cbn; [| lia].
  destruct (Read s buf) as [[data rerr] s'].
  specialize (IH data rerr s'). lia.
Qed.

(** [Upload] once the record is marked and the client is set: the transfer
    decides the results. *)
Lemma Upload_transfer {S : Type} `{Reader S} (E : Env) (ah : awshandler)
    (fdef : FileDef) (file : S) (tr : list Event) (c : S3) :
  svc ah = Some c ->
  store_Files_StartUpload E fdef = None ->
  let proc := s3manager_Upload E c (upload_input E ah fdef) in
  Upload E ah fdef file tr
  = (match run_upload proc file with
     | ((_, Some e), file') =>
         Ok ((EmptyString, 0%Z, Some e), (set_Status UploadPending fdef, file'))
     | ((None, None), _) => Panic nil_dereference
     | ((Some out, None), file') =>
         Ok ((ServeURL (conf ah) +:+ Id fdef
                +:+ inferred_extension E (MimeType fdef),
              wrap64 (bytes_read proc file), None),
             (uploaded_record E fdef out, file'))
     end,
     tr ++ [EvFilesStartUpload fdef; EvUpload (upload_input E ah fdef)]).
Proof.
  intros Hsvc Hstart proc.
  unfold Upload, call_Files_StartUpload. run_M. rewrite Hstart, Hsvc. cbn.
  fold (upload_input E ah fdef). fold proc.
  rewrite (run_upload_counter proc file 0%Z) by (unfold int64_range; lia).
  rewrite Z.add_0_l, <- app_assoc. cbn [app].
  destruct (run_upload proc file) as [[[out |] [e |]] file']; cbn;
    try reflexivity.
  unfold inferred_extension, uploaded_record.
  destruct (mime_ExtensionsByType E (MimeType fdef)) as [| e0 exts];
    destruct (uo_ETag out) as [tag |];
    rewrite ?append_empty_r; reflexivity.
Qed.

(** X8.  When the transfer to the backend fails with the error [e], [Upload]
    returns the empty URL, zero bytes (whatever was read) and [e]; the
    record is left marked as upload-in-progress, with its location and tag
    as they were, and the stream is left where the transfer stopped. *)
Theorem Upload_backend_error {S : Type} `{Reader S} (E : Env)
    (ah : awshandler) (fdef : FileDef) (file file' : S) (tr : list Event)
    (c : S3) (result : option UploadOutput) (e : error) :
  svc ah = Some c ->
  store_Files_StartUpload E fdef = None ->
  run_upload (s3manager_Upload E c (upload_input E ah fdef)) file
  = ((result, Some e), file') ->
  exists fdef' : FileDef,
    Upload E ah fdef file tr
    = (Ok ((EmptyString, 0%Z, Some e), (fdef', file')),
       tr ++ [EvFilesStartUpload fdef; EvUpload (upload_input E ah fdef)])
    /\ Status fdef' = UploadPending
    /\ Location fdef' = Location fdef
    /\ ETag fdef' = ETag fdef.
Proof.
  intros Hsvc Hstart Hrun.
  exists (set_Status UploadPending fdef).
  rewrite (Upload_transfer E ah fdef file tr c Hsvc Hstart). cbn zeta.
  rewrite Hrun. destruct result; repeat split.
Qed.

Lemma Upload_backend_error_witness :
  let E := mkEnv
    (json_Unmarshal (sample_env (None, 0%Z) 1%Z None None None None))
    (session_NewSession (sample_env (None, 0%Z) 1%Z None None None None))
    (fun _ _ => None) (fun _ _ => None) (fun _ _ => None)
    (fun _ _ => (EmptyString, None))
    (fun _ _ => UpRead 2 (fun _ _ =>
       UpDone None (Some (awserr_Error "RequestTimeout" "timed out"))))
    (fun _ => [])
    (fun _ _ _ _ => (None, 0%Z)) (fun _ _ => 1%Z)
    (fun _ => "AAAAAAAAAAE") (fun _ => "aaaaaaaaaaaac") (fun _ => 1%Z)
    (fun _ => (Some sample_record, None))
    (fun _ => None) in
  exists fdef' : FileDef,
    Upload E sample_handler sample_record
      (mkByteStream [Byte.x01; Byte.x02; Byte.x03]) []
    = (Ok ((EmptyString, 0%Z,
            Some (awserr_Error "RequestTimeout" "timed out")),
           (fdef', mkByteStream [Byte.x03])),
       [] ++ [EvFilesStartUpload sample_record;
              EvUpload (upload_input E sample_handler sample_record)])
    /\ Status fdef' = UploadPending
    /\ Location fdef' = Location sample_record
    /\ ETag fdef' = ETag sample_record.
Proof.
  intros E.
  apply (Upload_backend_error E sample_handler sample_record
           (mkByteStream [Byte.x01; Byte.x02; Byte.x03])
           (mkByteStream [Byte.x03]) [] sample_client None
           (awserr_Error "RequestTimeout" "timed out")).
  - reflexivity.
  - reflexivity.
  - reflexivity.
Defined.

(** X9.  The number of bytes a successful [Upload] reports is the number of
    bytes the uploader took out of the stream through [Read], counted
    modulo 2^64 into the [int64] range, for every kind of reader and whether
    or not the uploader read the stream to its end; below 2^63 it is that
    number itself. *)
Theorem Upload_counts_bytes_read {S : Type} `{Reader S} (E : Env)
    (ah : awshandler) (fdef : FileDef) (file file' : S) (tr : list Event)
    (c : S3) (out : UploadOutput) :
  svc ah = Some c ->
  store_Files_StartUpload E fdef = None ->
  let proc := s3manager_Upload E c (upload_input E ah fdef) in
  run_upload proc file = ((Some out, None), file') ->
  exists n : Z,
    Upload E ah fdef file tr
    = (Ok ((ServeURL (conf ah) +:+ Id fdef
              +:+ inferred_extension E (MimeType fdef), n, None),
           (uploaded_record E fdef out, file')),
       tr ++ [EvFilesStartUpload fdef; EvUpload (upload_input E ah fdef)])
    /\ n = wrap64 (bytes_read proc file)
    /\ (0 <= bytes_read proc file)%Z
    /\ ((bytes_read proc file < 2 ^ 63)%Z -> n = bytes_read proc file).
Proof.
  intros Hsvc Hstart proc Hrun.
  exists (wrap64 (bytes_read proc file)).
  rewrite (Upload_transfer E ah fdef file tr c Hsvc Hstart). cbn zeta.
  fold proc. rewrite Hrun.
  pose proof (bytes_read_nonneg proc file) as Hpos.
  split_and!; try reflexivity; try assumption.
  intros Hlt. apply wrap64_small. unfold int64_range. lia.
Qed.

Lemma Upload_counts_bytes_read_witness :
  let E := mkEnv
    (json_Unmarshal (sample_env (None, 0%Z) 1%Z None None None None))
    (session_NewSession (sample_env (None, 0%Z) 1%Z None None None None))
    (fun _ _ => None) (fun _ _ => None) (fun _ _ => None)
    (fun _ _ => (EmptyString, None))
    (fun _ _ => UpRead 2 (fun _ _ =>
       UpDone (Some {| uo_Location := "l"; uo_ETag := None |}) None))
    (fun _ => [])
    (fun _ _ _ _ => (None, 0%Z)) (fun _ _ => 1%Z)
    (fun _ => "AAAAAAAAAAE") (fun _ => "aaaaaaaaaaaac") (fun _ => 1%Z)
    (fun _ => (Some sample_record, None))
    (fun _ => None) in
  let file := mkByteStream [Byte.x01; Byte.x02; Byte.x03] in
  let proc := s3manager_Upload E sample_client
                (upload_input E sample_handler sample_record) in
  exists n : Z,
    Upload E sample_handler sample_record file []
    = (Ok ((ServeURL (conf sample_handler) +:+ Id sample_record
              +:+ inferred_extension E (MimeType sample_record), n, None),
           (uploaded_record E sample_record
              {| uo_Location := "l"; uo_ETag := None |},
            mkByteStream [Byte.x03])),
       [] ++ [EvFilesStartUpload sample_record;
              EvUpload (upload_input E sample_handler sample_record)])
    /\ n = wrap64 (bytes_read proc file)
    /\ (0 <= bytes_read proc file)%Z
    /\ ((bytes_read proc file < 2 ^ 63)%Z -> n = bytes_read proc file).
Proof.
  intros E file proc.
  apply (Upload_counts_bytes_read E sample_handler sample_record file
           (mkByteStream [Byte.x03]) [] sample_client
           {| uo_Location := "l"; uo_ETag := None |}).
  - reflexivity.
  - reflexivity.
  - reflexivity.
Defined.

(** X10.  The calls of [Upload], for every input, whatever the client of the
    handler is and however the transfer ends: the record is marked first; a
    failure to mark it is logged and ends the calls; otherwise the uploader
    is called, once, with the configured bucket and cache-control and the
    [String32] form of the identifier of the record as key. *)
Theorem Upload_calls {S : Type} `{Reader S} (E : Env) (ah : awshandler)
    (fdef : FileDef) (file : S) (tr : list Event) :
  snd (Upload E ah fdef file tr)
  = tr ++ EvFilesStartUpload fdef ::
      match store_Files_StartUpload E fdef with
      | Some e => [EvLogWarn (Id fdef) e]
      | None =>
          [EvUpload {| ui_CacheControl := CacheControl (conf ah);
                       ui_Bucket := BucketName (conf ah);
                       ui_Key := Uid_String32 E (FileDef_Uid E fdef) |}]
      end.
Proof.
  unfold Upload, call_Files_StartUpload. run_M.
  destruct (store_Files_StartUpload E fdef) as [e |]; cbn.
  - rewrite <- app_assoc. reflexivity.
  - destruct (svc ah) as [c |]; cbn; [| rewrite <- app_assoc; reflexivity].
    destruct (run_upload _ _) as [[[out |] [e |]] rc]; cbn;
      rewrite <- app_assoc; reflexivity.
Qed.

(** X11.  Upload, then redirect.  When the backend answers an upload with
    the ETag [t] in double quotes ([t] itself neither beginning nor ending
    with one), the record [Upload] hands back carries [t]; and once the store
    holds that record, the ETag header of the redirect [Headers] issues for
    it is the string the backend returned, quotes included. *)
Theorem Upload_then_Headers_ETag {S : Type} `{Reader S} (E : Env)
    (ah : awshandler) (fdef : FileDef) (file file' : S) (tr tr2 : list Event)
    (c : S3) (out : UploadOutput) (t : string)
    (method : string) (url : URL) (headers ch : http_Header) (serve : bool)
    (fid : Uid) :
  svc ah = Some c ->
  store_Files_StartUpload E fdef = None ->
  run_upload (s3manager_Upload E c (upload_input E ah fdef)) file
  = ((Some out, None), file') ->
  uo_ETag out = Some (quoted t) ->
  (forall rest, t <> dquote +:+ rest) ->
  (forall rest, t <> rest +:+ dquote) ->
  method = MethodGet \/ method = MethodHead ->
  media_CORSHandler E method headers (CorsOrigins (conf ah)) serve
  = (ch, 0%Z) ->
  resolves_to E ah url fid (uploaded_record E fdef out) ->
  etag_matches (uploaded_record E fdef out) ch = false ->
  exists (u : string) (n : Z) (h : gmap string (list string))
         (err : option error),
    fst (Upload E ah fdef file tr)
    = Ok ((u, n, None), (uploaded_record E fdef out, file'))
    /\ ETag (uploaded_record E fdef out) = t
    /\ fst (Headers E ah method url headers serve tr2)
       = Ok (Some h, StatusPermanentRedirect, err)
    /\ h !! "ETag" = Some [quoted t].
Proof.
  intros Hsvc Hstart Hrun Htag Hfirst Hlast Hm Hcors (Hfid & Hnz & Hrec) Hnm.
  assert (Het : ETag (uploaded_record E fdef out) = t).
  { unfold uploaded_record. rewrite Htag. cbn.
    apply Trim_quoted; assumption. }
  eexists. eexists.
  exists (redirect_headers ah (uploaded_record E fdef out)
            (fst (request_Presign E
                    (object_request E ah c method url fid
                       (uploaded_record E fdef out))
                    (presign_expire ah)))
            "application/json; charset=utf-8").
  eexists. split_and!.
  - rewrite (Upload_transfer E ah fdef file tr c Hsvc Hstart). cbn zeta.
    rewrite Hrun. reflexivity.
  - exact Het.
  - rewrite (Headers_redirect_branch E ah method url headers serve tr2 ch
               fid (uploaded_record E fdef out) Hcors Hfid Hnz Hrec c Hm Hsvc
               Hnm).
    reflexivity.
  - pose proof (lookup_redirect_headers ah (uploaded_record E fdef out)
                  (fst (request_Presign E
                          (object_request E ah c method url fid
                             (uploaded_record E fdef out))
                          (presign_expire ah)))
                  "application/json; charset=utf-8") as (_ & H2 & _).
    rewrite H2, Het. reflexivity.
Qed.

Lemma Upload_then_Headers_ETag_witness :
  let stored :=
    {| Id := "AAAAAAAAAAE"; User := "usr1"; Status := UploadPending;
       MimeType := "image/png"; Location := "aaaaaaaaaaaac"; ETag := "T" |} in
  let out := {| uo_Location := "l"; uo_ETag := Some (quoted "T") |} in
  let E := mkEnv
    (json_Unmarshal (sample_env (None, 0%Z) 1%Z None None None None))
    (session_NewSession (sample_env (None, 0%Z) 1%Z None None None None))
    (fun _ _ => None) (fun _ _ => None) (fun _ _ => None)
    (fun _ _ => ("https://b.s3.r.amazonaws.com/aaaaaaaaaaaac", None))
    (fun _ _ => drain 8 4 out)
    (fun _ => [".png"])
    (fun _ _ _ _ => (None, 0%Z)) (fun _ _ => 1%Z)
    (fun _ => "AAAAAAAAAAE") (fun _ => "aaaaaaaaaaaac") (fun _ => 1%Z)
    (fun _ => (Some stored, None))
    (fun _ => None) in
  exists (u : string) (n : Z) (h : gmap string (list string))
         (err : option error),
    fst (Upload E sample_handler sample_record
           (mkByteStream [Byte.x01; Byte.x02]) [])
    = Ok ((u, n, None),
          (uploaded_record E sample_record out, mkByteStream []))
    /\ ETag (uploaded_record E sample_record out) = "T"
    /\ fst (Headers E sample_handler MethodGet sample_url None false [])
       = Ok (Some h, StatusPermanentRedirect, err)
    /\ h !! "ETag" = Some [quoted "T"].
Proof.
  intros stored out E.
  apply (Upload_then_Headers_ETag E sample_handler sample_record
           (mkByteStream [Byte.x01; Byte.x02]) (mkByteStream []) [] []
           sample_client out "T" MethodGet sample_url None None false 1%Z).
  - reflexivity.
  - reflexivity.
  - reflexivity.
  - reflexivity.
  - intros rest. discriminate.
  - intros rest Heq. destruct rest as [| a [| b rest]]; discriminate Heq.
  - left. reflexivity.
  - reflexivity.
  - repeat split.
  - reflexivity.
Defined.

(** X12.  An object is fetched from where it was put: when the URL resolves
    to the identifier of the record that was uploaded, the request [Headers]
    signs for a GET or a HEAD names the bucket and the key that [Upload]
    gave to the uploader. *)
Theorem Upload_Headers_same_key {S : Type} `{Reader S} (E : Env)
    (ah : awshandler) (fdef : FileDef) (file : S) (tr tr2 : list Event)
    (c : S3) (method : string) (url : URL) (headers ch : http_Header)
    (serve : bool) (fid : Uid) (fd : FileDef) :
  svc ah = Some c ->
  store_Files_StartUpload E fdef = None ->
  method = MethodGet \/ method = MethodHead ->
  media_CORSHandler E method headers (CorsOrigins (conf ah)) serve
  = (ch, 0%Z) ->
  resolves_to E ah url fid fd ->
  etag_matches fd ch = false ->
  FileDef_Uid E fdef = fid ->
  exists (input : UploadInput) (req : Request) (expire : Z),
    snd (Upload E ah fdef file tr)
    = tr ++ [EvFilesStartUpload fdef; EvUpload input]
    /\ snd (Headers E ah method url headers serve tr2)
       = tr2 ++ lookup_events E ah url fid ++ [EvPresign req expire]
    /\ request_bucket req = ui_Bucket input
    /\ request_key req = ui_Key input.
Proof.
  intros Hsvc Hstart Hm Hcors (Hfid & Hnz & Hrec) Hnm Huid.
  exists (upload_input E ah fdef),
         (object_request E ah c method url fid fd), (presign_expire ah).
  split_and!.
  - rewrite (Upload_transfer E ah fdef file tr c Hsvc Hstart). reflexivity.
  - rewrite (Headers_redirect_branch E ah method url headers serve tr2 ch
               fid fd Hcors Hfid Hnz Hrec c Hm Hsvc Hnm).
    reflexivity.
  - unfold object_request. destruct (String.eqb method MethodGet); reflexivity.
  - unfold object_request, upload_input. rewrite Huid.
    destruct (String.eqb method MethodGet); reflexivity.
Qed.

Lemma Upload_Headers_same_key_witness :
  let E := sample_env (None, 0%Z) 1%Z None None None None in
  exists (input : UploadInput) (req : Request) (expire : Z),
    snd (Upload E sample_handler sample_record
           (mkByteStream [Byte.x01; Byte.x02]) [])
    = [] ++ [EvFilesStartUpload sample_record; EvUpload input]
    /\ snd (Headers E sample_handler MethodHead sample_url None false [])
       = [] ++ lookup_events E sample_handler sample_url 1%Z
            ++ [EvPresign req expire]
    /\ request_bucket req = ui_Bucket input
    /\ request_key req = ui_Key input.
Proof.
  apply (Upload_Headers_same_key
           (sample_env (None, 0%Z) 1%Z None None None None)
           sample_handler sample_record (mkByteStream [Byte.x01; Byte.x02])
           [] [] sample_client MethodHead sample_url None None false 1%Z
           sample_record).
  - reflexivity.
  - reflexivity.
  - right. reflexivity.
  - reflexivity.
  - repeat split.
  - reflexivity.
  - reflexivity.
Defined.

Lemma wrap64_idem (z : Z) : wrap64 (wrap64 z) = wrap64 z.
Proof. apply wrap64_small, wrap64_range. Qed.

(** X13.  The byte counter is transparent: an upload that reads through a
    [readerCounter] gets the same result and leaves the wrapped reader in
    the same state as one that reads the reader itself, whatever the
    counter held; and the counter has advanced, modulo 2^64, by the number
    of bytes read. *)
Theorem readerCounter_transparent {S : Type} `{Reader S} (p : UploadProc) :
  forall rc : readerCounter S,
    fst (run_upload p rc) = fst (run_upload p (reader rc))
    /\ reader (snd (run_upload p rc)) = snd (run_upload p (reader rc))
    /\ wrap64 (count (snd (run_upload p rc)))
       = wrap64 (count rc + bytes_read p (reader rc)).
Proof.
  induction p as [buf k IH | result err]; intros [c0 s].
  - destruct (Read s buf) as [[data rerr] s'] eqn:Hread.
    assert (Hstep :
      run_upload (UpRead buf k) {| count := c0; reader := s |}
      = run_upload (k data rerr)
          {| count := wrap64 (c0 + Z.of_nat (length data)); reader := s' |}).
    { cbn. unfold Read at 1, readerCounter_Reader, readerCounter_Read. cbn.
      rewrite Hread. reflexivity. }
    assert (Hraw : run_upload (UpRead buf k) s = run_upload (k data rerr) s')
      by (cbn; rewrite Hread; reflexivity).
    assert (Hbytes : bytes_read (UpRead buf k) s
                     = (Z.of_nat (length data) + bytes_read (k data rerr) s')%Z)
      by (cbn; rewrite Hread; reflexivity).
    cbn [reader count]. rewrite Hstep, Hraw, Hbytes.
    destruct (IH data rerr
                {| count := wrap64 (c0 + Z.of_nat (length data));
                   reader := s' |}) as (H1 & H2 & H3).
    cbn [reader count] in H1, H2, H3. split_and!; [exact H1 | exact H2 |].
    rewrite H3, wrap64_add_l, Z.add_assoc. reflexivity.
  - cbn. rewrite Z.add_0_r. split_and!; reflexivity.
Qed.

(** ** Further properties of [Init] *)

Lemma cors_origins_default (c : awsconfig) :
  (if (length (CorsOrigins c) =? 0)%nat
   then CorsOrigins c ++ ["*"] else CorsOrigins c)
  = cors_AllowedOrigins (cors_input c).
Proof. unfold cors_input. cbn. destruct (CorsOrigins c); reflexivity. Qed.

(** X14.  The calls of [Init] are, in this order, the creation of the
    session, the probe for the bucket, the creation of the bucket and the
    setting of its CORS rule; every run makes a prefix of them: it never
    creates a bucket it has not probed and never sets a CORS rule on a
    bucket it has not just tried to create. *)
Theorem Init_calls_in_order (E : Env) (ah : awshandler) (jsconf : string)
    (tr : list Event) :
  let c := apply_defaults (fst (json_Unmarshal E jsconf (conf ah))) in
  exists n : nat,
    (n <= 4)%nat
    /\ snd (Init E ah jsconf tr) = tr ++ take n (init_calls c).
Proof.
  intros c. unfold Init. subst c.
  destruct (json_Unmarshal E jsconf (conf ah)) as [c0 [e |]]; cbn [fst].
  { exists 0%nat. cbn. rewrite app_nil_r. split; [lia | reflexivity]. }
  destruct (String.eqb (AccessKeyId c0) EmptyString);
    [exists 0%nat; cbn; rewrite app_nil_r; split; [lia | reflexivity] |].
  destruct (String.eqb (SecretAccessKey c0) EmptyString);
    [exists 0%nat; cbn; rewrite app_nil_r; split; [lia | reflexivity] |].
  destruct (String.eqb (Region c0) EmptyString);
    [exists 0%nat; cbn; rewrite app_nil_r; split; [lia | reflexivity] |].
  destruct (String.eqb (BucketName c0) EmptyString);
    [exists 0%nat; cbn; rewrite app_nil_r; split; [lia | reflexivity] |].
  set (c := apply_defaults c0).
  unfold call_NewSession, call_HeadBucket, call_CreateBucket,
    call_PutBucketCors. run_M.
  destruct (session_NewSession E (session_config c)) as [[sess |] [e |]];
    cbn; try (exists 1%nat; split; [lia | reflexivity]).
  destruct (s3_HeadBucket E (s3_New sess) (BucketName c)) as [e |]; cbn;
    [| exists 2%nat; split; [lia | rewrite <- app_assoc; reflexivity] ].
  destruct (match awserr_Code e with
            | Some code => negb (String.eqb code ErrCodeNoSuchBucket)
            | None => true
            end);
    [exists 2%nat; split; [lia | rewrite <- app_assoc; reflexivity] |].
  cbn.
  destruct (s3_CreateBucket E (s3_New sess) (BucketName c)) as [e' |]; cbn.
  - exists 3%nat. split; [lia |].
    destruct (awserr_Code e') as [code |];
      [destruct (benign_create_code code) |];
      cbn; rewrite <- !app_assoc; reflexivity.
  - exists 4%nat. split; [lia |].
    rewrite cors_origins_default, <- !app_assoc. reflexivity.
Qed.

(** X15.  A configuration that lacks the access key id, the secret access
    key, the region or the bucket is rejected before any call is made, with
    the message of the first of them that is missing, in this order; the
    handler keeps the parsed configuration as it is, without the defaults,
    and its client as it was. *)
Theorem Init_missing_required (E : Env) (ah : awshandler) (jsconf : string)
    (tr : list Event) (c0 : awsconfig) :
  json_Unmarshal E jsconf (conf ah) = (c0, None) ->
  AccessKeyId c0 = EmptyString \/ SecretAccessKey c0 = EmptyString
  \/ Region c0 = EmptyString \/ BucketName c0 = EmptyString ->
  exists msg : string,
    Init E ah jsconf tr
    = (Ok ({| svc := svc ah; conf := c0 |}, Some (errorString msg)), tr)
    /\ (AccessKeyId c0 = EmptyString -> msg = "missing Access Key ID")
    /\ (AccessKeyId c0 <> EmptyString -> SecretAccessKey c0 = EmptyString ->
        msg = "missing Secret Access Key")
    /\ (AccessKeyId c0 <> EmptyString -> SecretAccessKey c0 <> EmptyString ->
        Region c0 = EmptyString -> msg = "missing Region")
    /\ (AccessKeyId c0 <> EmptyString -> SecretAccessKey c0 <> EmptyString ->
        Region c0 <> EmptyString -> msg = "missing Bucket").
Proof.
  intros Hjs Hmiss. unfold Init. rewrite Hjs.
  destruct (String.eqb_spec (AccessKeyId c0) EmptyString) as [Hak | Hak].
  { eexists. split; [reflexivity |]. split_and!; intros; try reflexivity;
      contradiction. }
  destruct (String.eqb_spec (SecretAccessKey c0) EmptyString) as [Hsk | Hsk].
  { eexists. split; [reflexivity |]. split_and!; intros; try reflexivity;
      contradiction. }
  destruct (String.eqb_spec (Region c0) EmptyString) as [Hrg | Hrg].
  { eexists. split; [reflexivity |]. split_and!; intros; try reflexivity;
      contradiction. }
  destruct (String.eqb_spec (BucketName c0) EmptyString) as [Hbn | Hbn].
  { eexists. split; [reflexivity |]. split_and!; intros; try reflexivity;
      contradiction. }
  exfalso. destruct Hmiss as [H | [H | [H | H]]]; contradiction.
Qed.

Lemma Init_missing_required_witness :
  let E := mkEnv
    (fun _ c => (mkAwsconfig "k" "s" EmptyString false false EmptyString
                   EmptyString [] EmptyString 0 EmptyString, None))
    (session_NewSession (sample_env (None, 0%Z) 1%Z None None None None))
    (fun _ _ => None) (fun _ _ => None) (fun _ _ => None)
    (fun _ _ => (EmptyString, None))
    (s3manager_Upload (sample_env (None, 0%Z) 1%Z None None None None))
    (fun _ => [])
    (fun _ _ _ _ => (None, 0%Z)) (fun _ _ => 1%Z)
    (fun _ => "AAAAAAAAAAE") (fun _ => "aaaaaaaaaaaac") (fun _ => 1%Z)
    (fun _ => (None, None))
    (fun _ => None) in
  let c0 := mkAwsconfig "k" "s" EmptyString false false EmptyString
              EmptyString [] EmptyString 0 EmptyString in
  let ah := mkAwshandler None awsconfig_zero in
  exists msg : string,
    Init E ah "{}" []
    = (Ok ({| svc := svc ah; conf := c0 |}, Some (errorString msg)), [])
    /\ (AccessKeyId c0 = EmptyString -> msg = "missing Access Key ID")
    /\ (AccessKeyId c0 <> EmptyString -> SecretAccessKey c0 = EmptyString ->
        msg = "missing Secret Access Key")
    /\ (AccessKeyId c0 <> EmptyString -> SecretAccessKey c0 <> EmptyString ->
        Region c0 = EmptyString -> msg = "missing Region")
    /\ (AccessKeyId c0 <> EmptyString -> SecretAccessKey c0 <> EmptyString ->
        Region c0 <> EmptyString -> msg = "missing Bucket").
Proof.
  intros E c0 ah.
  apply (Init_missing_required E ah "{}" [] c0).
  - reflexivity.
  - right. right. left. reflexivity.
Defined.

(** [Init] from the probe on, for an accepted configuration and a session
    that was built. *)
Lemma Init_accepted (E : Env) (ah : awshandler) (jsconf : string)
    (tr : list Event) (c0 : awsconfig) (sess : Session) :
  json_Unmarshal E jsconf (conf ah) = (c0, None) ->
  AccessKeyId c0 <> EmptyString ->
  SecretAccessKey c0 <> EmptyString ->
  Region c0 <> EmptyString ->
  BucketName c0 <> EmptyString ->
  let c := apply_defaults c0 in
  let client := s3_New sess in
  let ah' := {| svc := Some client; conf := c |} in
  session_NewSession E (session_config c) = (Some sess, None) ->
  Init E ah jsconf tr
  = match s3_HeadBucket E client (BucketName c) with
    | None => (Ok (ah', None), tr ++ take 2 (init_calls c))
    | Some e =>
        if match awserr_Code e with
           | Some code => negb (String.eqb code ErrCodeNoSuchBucket)
           | None => true
           end
        then (Ok (ah', Some e), tr ++ take 2 (init_calls c))
        else
          match s3_CreateBucket E client (BucketName c) with
          | Some e' =>
              (Ok (ah', match awserr_Code e' with
                        | Some code =>
                            if benign_create_code code then None else Some e'
                        | None => Some e'
                        end),
               tr ++ take 3 (init_calls c))
          | None =>
              (Ok (ah', s3_PutBucketCors E client (cors_input c)),
               tr ++ init_calls c)
          end
    end.
Proof.
  intros Hjs Hak Hsk Hrg Hbn c client ah' Hsess.
  apply String.eqb_neq in Hak, Hsk, Hrg, Hbn.
  unfold Init. rewrite Hjs, Hak, Hsk, Hrg, Hbn. fold c.
  unfold call_NewSession, call_HeadBucket, call_CreateBucket,
    call_PutBucketCors. run_M.
  rewrite Hsess. cbn. fold client.
  destruct (s3_HeadBucket E client (BucketName c)) as [e |]; cbn;
    [| rewrite <- app_assoc; reflexivity].
  destruct (match awserr_Code e with
            | Some code => negb (String.eqb code ErrCodeNoSuchBucket)
            | None => true
            end); cbn; [rewrite <- app_assoc; reflexivity |].
  destruct (s3_CreateBucket E client (BucketName c)) as [e' |]; cbn.
  - destruct (awserr_Code e') as [code |];
      [destruct (benign_create_code code) |];
      cbn; rewrite <- !app_assoc; reflexivity.
  - rewrite cors_origins_default, <- !app_assoc. reflexivity.
Qed.

(** X16.  When the probe for the bucket fails with anything but an
    [awserr.Error] whose code is NoSuchBucket, [Init] returns that error
    after the probe and does not try to create the bucket. *)
Theorem Init_probe_hard_error (E : Env) (ah : awshandler) (jsconf : string)
    (tr : list Event) (c0 : awsconfig) (sess : Session) (e : error) :
  json_Unmarshal E jsconf (conf ah) = (c0, None) ->
  AccessKeyId c0 <> EmptyString ->
  SecretAccessKey c0 <> EmptyString ->
  Region c0 <> EmptyString ->
  BucketName c0 <> EmptyString ->
  let c := apply_defaults c0 in
  let client := s3_New sess in
  session_NewSession E (session_config c) = (Some sess, None) ->
  s3_HeadBucket E client (BucketName c) = Some e ->
  awserr_Code e <> Some "NoSuchBucket" ->
  Init E ah jsconf tr
  = (Ok ({| svc := Some client; conf := c |}, Some e),
     tr ++ [EvNewSession (session_config c); EvHeadBucket (BucketName c)]).
Proof.
  intros Hjs Hak Hsk Hrg Hbn c client Hsess Hhead Hcode.
  rewrite (Init_accepted E ah jsconf tr c0 sess Hjs Hak Hsk Hrg Hbn Hsess).
  fold c client. rewrite Hhead.
  destruct (awserr_Code e) as [code |]; [| reflexivity].
  destruct (String.eqb_spec code ErrCodeNoSuchBucket) as [-> | _];
    [contradiction | reflexivity].
Qed.

Lemma Init_probe_hard_error_witness :
  let E := sample_env (None, 0%Z) 1%Z None None
             (Some (awserr_Error "NotFound" "Not Found")) None in
  Init E (mkAwshandler None awsconfig_zero) sample_jsconf []
  = (Ok ({| svc := Some (s3_New sample_session); conf := sample_conf |},
         Some (awserr_Error "NotFound" "Not Found")),
     [] ++ [EvNewSession (session_config sample_conf);
            EvHeadBucket (BucketName sample_conf)]).
Proof.
  apply (Init_probe_hard_error
           (sample_env (None, 0%Z) 1%Z None None
              (Some (awserr_Error "NotFound" "Not Found")) None)
           (mkAwshandler None awsconfig_zero) sample_jsconf []
           (mkAwsconfig "k" "s" "r" false false EmptyString "b" []
              EmptyString 0 EmptyString)
           sample_session (awserr_Error "NotFound" "Not Found")).
  - reflexivity.
  - discriminate.
  - discriminate.
  - discriminate.
  - discriminate.
  - reflexivity.
  - reflexivity.
  - discriminate.
Defined.

(** X17.  When the probe reports that there is no such bucket and the bucket
    is then created, [Init] puts one CORS rule on it: methods GET and HEAD,
    every header, and as origins the configured ones, or the wildcard when
    none is configured; what [Init] returns is the outcome of that call, so
    a refused CORS rule fails the initialisation although the bucket now
    exists. *)
Theorem Init_new_bucket (E : Env) (ah : awshandler) (jsconf : string)
    (tr : list Event) (c0 : awsconfig) (sess : Session) (msg : string) :
  json_Unmarshal E jsconf (conf ah) = (c0, None) ->
  AccessKeyId c0 <> EmptyString ->
  SecretAccessKey c0 <> EmptyString ->
  Region c0 <> EmptyString ->
  BucketName c0 <> EmptyString ->
  let c := apply_defaults c0 in
  let client := s3_New sess in
  session_NewSession E (session_config c) = (Some sess, None) ->
  s3_HeadBucket E client (BucketName c)
  = Some (awserr_Error "NoSuchBucket" msg) ->
  s3_CreateBucket E client (BucketName c) = None ->
  exists rule : PutBucketCorsInput,
    Init E ah jsconf tr
    = (Ok ({| svc := Some client; conf := c |}, s3_PutBucketCors E client rule),
       tr ++ [EvNewSession (session_config c); EvHeadBucket (BucketName c);
              EvCreateBucket (BucketName c); EvPutBucketCors rule])
    /\ cors_Bucket rule = BucketName c0
    /\ cors_AllowedMethods rule = ["GET"; "HEAD"]
    /\ cors_AllowedHeaders rule = ["*"]
    /\ (CorsOrigins c0 = [] -> cors_AllowedOrigins rule = ["*"])
    /\ (CorsOrigins c0 <> [] -> cors_AllowedOrigins rule = CorsOrigins c0).
Proof.
  intros Hjs Hak Hsk Hrg Hbn c client Hsess Hhead Hcreate.
  exists (cors_input c).
  rewrite (Init_accepted E ah jsconf tr c0 sess Hjs Hak Hsk Hrg Hbn Hsess).
  fold c client. rewrite Hhead. cbn. rewrite Hcreate.
  pose proof (apply_defaults_frame c0) as (_ & _ & _ & Hb & Ho). fold c in Hb, Ho.
  split_and!; try reflexivity.
  - exact Hb.
  - intros Hnil. unfold cors_input. cbn. rewrite Ho, Hnil. reflexivity.
  - intros Hne. unfold cors_input. cbn. rewrite Ho.
    destruct (CorsOrigins c0); [contradiction | reflexivity].
Qed.

Lemma Init_new_bucket_witness :
  let E := sample_env (None, 0%Z) 1%Z None None
             (Some (awserr_Error "NoSuchBucket" "no bucket")) None in
  let c0 := mkAwsconfig "k" "s" "r" false false EmptyString "b" []
              EmptyString 0 EmptyString in
  exists rule : PutBucketCorsInput,
    Init E (mkAwshandler None awsconfig_zero) sample_jsconf []
    = (Ok ({| svc := Some (s3_New sample_session);
              conf := apply_defaults c0 |},
           s3_PutBucketCors E (s3_New sample_session) rule),
       [] ++ [EvNewSession (session_config (apply_defaults c0));
              EvHeadBucket (BucketName (apply_defaults c0));
              EvCreateBucket (BucketName (apply_defaults c0));
              EvPutBucketCors rule])
    /\ cors_Bucket rule = BucketName c0
    /\ cors_AllowedMethods rule = ["GET"; "HEAD"]
    /\ cors_AllowedHeaders rule = ["*"]
    /\ (CorsOrigins c0 = [] -> cors_AllowedOrigins rule = ["*"])
    /\ (CorsOrigins c0 <> [] -> cors_AllowedOrigins rule = CorsOrigins c0).
Proof.
  apply (Init_new_bucket
           (sample_env (None, 0%Z) 1%Z None None
              (Some (awserr_Error "NoSuchBucket" "no bucket")) None)
           (mkAwshandler None awsconfig_zero) sample_jsconf []
           (mkAwsconfig "k" "s" "r" false false EmptyString "b" []
              EmptyString 0 EmptyString)
           sample_session "no bucket").
  - reflexivity.
  - discriminate.
  - discriminate.
  - discriminate.
  - discriminate.
  - reflexivity.
  - reflexivity.
  - reflexivity.
Defined.

Lemma apply_defaults_kept (c : awsconfig) :
  ((0 < PresignTTL c)%Z -> PresignTTL (apply_defaults c) = PresignTTL c)
  /\ (CacheControl c <> EmptyString ->
      CacheControl (apply_defaults c) = CacheControl c)
  /\ (ServeURL c <> EmptyString -> ServeURL (apply_defaults c) = ServeURL c)
  /\ DisableSSL (apply_defaults c) = DisableSSL c
  /\ ForcePathStyle (apply_defaults c) = ForcePathStyle c
  /\ Endpoint (apply_defaults c) = Endpoint c.
Proof.
  unfold apply_defaults.
  destruct (Z.leb_spec (PresignTTL c) 0) as [Httl | Httl];
    cbn; destruct (String.eqb_spec (CacheControl c) EmptyString) as [Hcc | Hcc];
    cbn; destruct (String.eqb_spec (ServeURL c) EmptyString) as [Hsu | Hsu];
    cbn; split_and!; intros; try reflexivity; try contradiction; try lia.
Qed.

(** X18.  A successful [Init] changes nothing that was configured: a
    positive presign TTL, a non-empty cache-control string and a non-empty
    serve URL are kept as parsed, and so are the credentials, the region, the
    endpoint, the two flags, the bucket name and the CORS origins. *)
Theorem Init_keeps_configured (E : Env) (ah : awshandler) (jsconf : string)
    (tr tr' : list Event) (ah' : awshandler) :
  Init E ah jsconf tr = (Ok (ah', None), tr') ->
  let parsed := fst (json_Unmarshal E jsconf (conf ah)) in
  ((0 < PresignTTL parsed)%Z -> PresignTTL (conf ah') = PresignTTL parsed)
  /\ (CacheControl parsed <> EmptyString ->
      CacheControl (conf ah') = CacheControl parsed)
  /\ (ServeURL parsed <> EmptyString -> ServeURL (conf ah') = ServeURL parsed)
  /\ AccessKeyId (conf ah') = AccessKeyId parsed
  /\ SecretAccessKey (conf ah') = SecretAccessKey parsed
  /\ Region (conf ah') = Region parsed
  /\ Endpoint (conf ah') = Endpoint parsed
  /\ DisableSSL (conf ah') = DisableSSL parsed
  /\ ForcePathStyle (conf ah') = ForcePathStyle parsed
  /\ BucketName (conf ah') = BucketName parsed
  /\ CorsOrigins (conf ah') = CorsOrigins parsed.
Proof.
  intros Hinit parsed.
  rewrite (Init_success_conf E ah jsconf tr tr' ah' Hinit). fold parsed.
  pose proof (apply_defaults_kept parsed) as (H1 & H2 & H3 & H4 & H5 & H6).
  pose proof (apply_defaults_frame parsed) as (F1 & F2 & F3 & F4 & F5).
  split_and!; assumption.
Qed.

Lemma Init_keeps_configured_witness :
  let c0 := mkAwsconfig "k" "s" "r" true true "http://minio:9000" "b"
              ["https://chat.example.com"] "/files/" 30 "max-age=60" in
  let E := mkEnv
    (fun _ _ => (c0, None))
    (fun cfg => (Some {| Session_Config := cfg |}, None))
    (fun _ _ => None) (fun _ _ => None) (fun _ _ => None)
    (fun _ _ => (EmptyString, None))
    (fun _ _ => UpDone None None)
    (fun _ => [])
    (fun _ _ _ _ => (None, 0%Z)) (fun _ _ => 1%Z)
    (fun _ => "AAAAAAAAAAE") (fun _ => "aaaaaaaaaaaac") (fun _ => 1%Z)
    (fun _ => (None, None))
    (fun _ => None) in
  let ah' := {| svc := Some (s3_New {| Session_Config := session_config c0 |});
                conf := c0 |} in
  let parsed :=
    fst (json_Unmarshal E "{}" (conf (mkAwshandler None awsconfig_zero))) in
  ((0 < PresignTTL parsed)%Z -> PresignTTL (conf ah') = PresignTTL parsed)
  /\ (CacheControl parsed <> EmptyString ->
      CacheControl (conf ah') = CacheControl parsed)
  /\ (ServeURL parsed <> EmptyString -> ServeURL (conf ah') = ServeURL parsed)
  /\ AccessKeyId (conf ah') = AccessKeyId parsed
  /\ SecretAccessKey (conf ah') = SecretAccessKey parsed
  /\ Region (conf ah') = Region parsed
  /\ Endpoint (conf ah') = Endpoint parsed
  /\ DisableSSL (conf ah') = DisableSSL parsed
  /\ ForcePathStyle (conf ah') = ForcePathStyle parsed
  /\ BucketName (conf ah') = BucketName parsed
  /\ CorsOrigins (conf ah') = CorsOrigins parsed.
Proof.
  intros c0 E ah'.
  apply (Init_keeps_configured E (mkAwshandler None awsconfig_zero) "{}" []
           [EvNewSession (session_config c0); EvHeadBucket "b"] ah').
  reflexivity.
Defined.

Lemma Init_success_svc (E : Env) (ah : awshandler) (jsconf : string)
    (tr tr' : list Event) (ah' : awshandler) :
  Init E ah jsconf tr = (Ok (ah', None), tr') ->
  exists sess : Session,
    svc ah' = Some (s3_New sess)
    /\ session_NewSession E (session_config (conf ah')) = (Some sess, None).
Proof.
  unfold Init.
  destruct (json_Unmarshal E jsconf (conf ah)) as [c0 [e |]]; [discriminate |].
  destruct (String.eqb (AccessKeyId c0) EmptyString); [discriminate |].
  destruct (String.eqb (SecretAccessKey c0) EmptyString); [discriminate |].
  destruct (String.eqb (Region c0) EmptyString); [discriminate |].
  destruct (String.eqb (BucketName c0) EmptyString); [discriminate |].
  unfold call_NewSession, call_HeadBucket, call_CreateBucket,
    call_PutBucketCors. run_M.
  destruct (session_NewSession E (session_config (apply_defaults c0)))
    as [[sess |] [e |]] eqn:Hsess; try discriminate.
  assert (Hgoal : forall a : awshandler,
    a = {| svc := Some (s3_New sess); conf := apply_defaults c0 |} ->
    exists sess0, svc a = Some (s3_New sess0)
      /\ session_NewSession E (session_config (conf a)) = (Some sess0, None)).
  { intros a ->. exists sess. split; [reflexivity | exact Hsess]. }
  destruct (s3_HeadBucket E (s3_New sess) (BucketName (apply_defaults c0)))
    as [e |]; [| intros [= <- _]; apply Hgoal; reflexivity].
  destruct (awserr_Code e) as [code |]; [| discriminate].
  destruct (negb (String.eqb code ErrCodeNoSuchBucket)); [discriminate |].
  destruct (s3_CreateBucket E (s3_New sess) (BucketName (apply_defaults c0)))
    as [e' |].
  - destruct (awserr_Code e') as [code' |]; [| discriminate].
    destruct (benign_create_code code'); [| discriminate].
    intros [= <- _]. apply Hgoal. reflexivity.
  - intros [= <- _]. apply Hgoal. reflexivity.
Qed.

Lemma Headers_returns (E : Env) (ah : awshandler) (method : string)
    (url : URL) (headers : http_Header) (serve : bool) (tr : list Event)
    (c : S3) :
  svc ah = Some c ->
  exists (r : http_Header * Z * option error) (tr' : list Event),
    Headers E ah method url headers serve tr = (Ok r, tr').
Proof.
  intros Hsvc. unfold Headers.
  destruct (media_CORSHandler E method headers (CorsOrigins (conf ah)) serve)
    as [ch status].
  destruct (negb (status =? 0)%Z || String.eqb method MethodPost
            || String.eqb method MethodPut); [eauto |].
  unfold GetIdFromUrl, getFileRecord, call_Files_Get, call_Presign. run_M.
  rewrite Hsvc.
  destruct (IsZero _); [eauto |].
  destruct (store_Files_Get E _) as [[fd |] [e |]]; cbn; eauto.
  destruct (negb (String.eqb (ETag fd) EmptyString) && _); [eauto |].
  destruct (String.eqb method MethodGet); cbn.
  - destruct (request_Presign E _ _); eauto.
  - destruct (String.eqb method MethodHead); cbn; [| eauto].
    destruct (request_Presign E _ _); eauto.
Qed.

(** X19.  A successful [Init] leaves the handler ready to serve: its client
    is the one built from the session created for the effective
    configuration, and on the handler so initialised [Headers] returns for
    every request, without panicking. *)
Theorem Init_then_Headers (E : Env) (ah : awshandler) (jsconf : string)
    (tr tr' : list Event) (ah' : awshandler) :
  Init E ah jsconf tr = (Ok (ah', None), tr') ->
  (exists sess : Session,
     svc ah' = Some (s3_New sess)
     /\ session_NewSession E (session_config (conf ah')) = (Some sess, None))
  /\ forall (method : string) (url : URL) (headers : http_Header)
            (serve : bool) (tr2 : list Event),
       exists (r : http_Header * Z * option error) (tr3 : list Event),
         Headers E ah' method url headers serve tr2 = (Ok r, tr3).
Proof.
  intros Hinit.
  destruct (Init_success_svc E ah jsconf tr tr' ah' Hinit)
    as (sess & Hsvc & Hsess).
  split; [exists sess; split; assumption |].
  intros method url headers serve tr2.
  exact (Headers_returns E ah' method url headers serve tr2 (s3_New sess) Hsvc).
Qed.

Lemma Init_then_Headers_witness :
  let E := sample_env (None, 0%Z) 1%Z None None None None in
  (exists sess : Session,
     svc sample_handler = Some (s3_New sess)
     /\ session_NewSession E (session_config (conf sample_handler))
        = (Some sess, None))
  /\ forall (method : string) (url : URL) (headers : http_Header)
            (serve : bool) (tr2 : list Event),
       exists (r : http_Header * Z * option error) (tr3 : list Event),
         Headers E sample_handler method url headers serve tr2 = (Ok r, tr3).
Proof.
  apply (Init_then_Headers (sample_env (None, 0%Z) 1%Z None None None None)
           (mkAwshandler None awsconfig_zero) sample_jsconf []
           [EvNewSession (session_config sample_conf); EvHeadBucket "b"]
           sample_handler).
  reflexivity.
Defined.

(** ** Properties of [Delete] *)

Lemma Delete_fill_map (ah : awshandler) (keys : list string) :
  forall done : list BatchDeleteObject,
    Delete_fill ah (length done) keys
      (done ++ replicate (length keys) {| bdo_Object := None |})
    = Ok (done ++ map (delete_object ah) keys).
Proof.
  induction keys as [| key rest IH]; intros done; cbn [Delete_fill].
  - reflexivity.
  - assert (Hlt : (length done <? length
                     (done ++ replicate (length (key :: rest))
                                {| bdo_Object := None |}))%nat = true).
    { apply Nat.ltb_lt. rewrite length_app, length_replicate. cbn. lia. }
    rewrite Hlt.
    change (replicate (length (key :: rest)) {| bdo_Object := None |})
      with ({| bdo_Object := None |}
            :: replicate (length rest) {| bdo_Object := None |}).
    rewrite insert_app_r_alt by lia. rewrite Nat.sub_diag. cbn [insert].
    change (<[0%nat := ?x]> (?y :: ?l)) with (x :: l).
    specialize (IH (done ++ [delete_object ah key])).
    rewrite length_app in IH. cbn [length] in IH.
    rewrite Nat.add_1_r in IH.
    rewrite <- !app_assoc in IH. cbn [app] in IH.
    exact IH.
Qed.

(** X20.  [Delete] hands the batch deleter, once, one object for each
    location, in the order of the locations, each naming the location as key
    and the configured bucket; the client is passed as the handler has it and
    the error of the deleter is returned as it is.  The loop that fills the
    batch never indexes outside it, and an empty list of locations gives an
    empty batch. *)
Theorem Delete_batch (B : BatchEnv) (ah : awshandler) (locations : list string) :
  exists batch : list BatchDeleteObject,
    Delete B ah locations = Ok (s3manager_BatchDelete B (svc ah) batch)
    /\ length batch = length locations
    /\ (forall (i : nat) (key : string),
          locations !! i = Some key ->
          batch !! i
          = Some {| bdo_Object :=
                      Some {| doi_Key := key;
                              doi_Bucket := BucketName (conf ah) |} |})
    /\ (locations = [] -> batch = []).
Proof.
  exists (map (delete_object ah) locations).
  unfold Delete.
  pose proof (Delete_fill_map ah locations []) as Hfill.
  cbn [length app] in Hfill. rewrite Hfill.
  split_and!.
  - reflexivity.
  - apply length_map.
  - intros i key Hi. rewrite list_lookup_fmap, Hi. reflexivity.
  - intros ->. reflexivity.
Qed.

(** ** Failure of the session, and panics of [Upload] *)

(** X21.  When the session cannot be created, [Init] returns the error of
    [session.NewSession]; the configuration is already the effective one,
    the handler keeps the client it had, and no call about the bucket is
    made. *)
Theorem Init_session_error (E : Env) (ah : awshandler) (jsconf : string)
    (tr : list Event) (c0 : awsconfig) (sess : option Session) (e : error) :
  json_Unmarshal E jsconf (conf ah) = (c0, None) ->
  AccessKeyId c0 <> EmptyString ->
  SecretAccessKey c0 <> EmptyString ->
  Region c0 <> EmptyString ->
  BucketName c0 <> EmptyString ->
  let c := apply_defaults c0 in
  session_NewSession E (session_config c) = (sess, Some e) ->
  Init E ah jsconf tr
  = (Ok ({| svc := svc ah; conf := c |}, Some e),
     tr ++ [EvNewSession (session_config c)]).
Proof.
  intros Hjs Hak Hsk Hrg Hbn c Hsess.
  apply String.eqb_neq in Hak, Hsk, Hrg, Hbn.
  unfold Init. rewrite Hjs, Hak, Hsk, Hrg, Hbn. fold c.
  unfold call_NewSession. run_M. rewrite Hsess. reflexivity.
Qed.

Lemma Init_session_error_witness :
  let c0 := mkAwsconfig "k" "s" "r" false false EmptyString "b" []
              EmptyString 0 EmptyString in
  let E := mkEnv
    (fun _ _ => (c0, None))
    (fun cfg => (None, Some (errorString "bad endpoint")))
    (fun _ _ => None) (fun _ _ => None) (fun _ _ => None)
    (fun _ _ => (EmptyString, None))
    (fun _ _ => UpDone None None)
    (fun _ => [])
    (fun _ _ _ _ => (None, 0%Z)) (fun _ _ => 1%Z)
    (fun _ => "AAAAAAAAAAE") (fun _ => "aaaaaaaaaaaac") (fun _ => 1%Z)
    (fun _ => (None, None))
    (fun _ => None) in
  Init E sample_handler "{}" []
  = (Ok ({| svc := svc sample_handler; conf := apply_defaults c0 |},
         Some (errorString "bad endpoint")),
     [] ++ [EvNewSession (session_config (apply_defaults c0))]).
Proof.
  intros c0 E.
  apply (Init_session_error E sample_handler "{}" [] c0 None
           (errorString "bad endpoint")).
  - reflexivity.
  - discriminate.
  - discriminate.
  - discriminate.
  - discriminate.
  - reflexivity.
Defined.

Lemma Upload_start_failure_run {S : Type} `{Reader S} (E : Env)
    (ah : awshandler) (fdef : FileDef) (file : S) (tr : list Event)
    (e : error) :
  store_Files_StartUpload E fdef = Some e ->
  exists r, Upload E ah fdef file tr
            = (Ok r, tr ++ [EvFilesStartUpload fdef; EvLogWarn (Id fdef) e]).
Proof.
  intros Hstart. unfold Upload, call_Files_StartUpload. run_M.
  rewrite Hstart. cbn. rewrite <- app_assoc. eauto.
Qed.

(** X22.  On a handler whose S3 client is set, [Upload] does not panic as
    long as the uploader keeps to returning a result or an error: it returns
    a URL, a count and an error value whether marking the record fails, the
    transfer fails or both succeed. *)
Theorem Upload_no_panic {S : Type} `{Reader S} (E : Env) (ah : awshandler)
    (fdef : FileDef) (file : S) (tr : list Event) (c : S3) :
  svc ah = Some c ->
  fst (run_upload (s3manager_Upload E c (upload_input E ah fdef)) file)
  <> (None, None) ->
  exists (r : (string * Z * option error) * (FileDef * S))
         (tr' : list Event),
    Upload E ah fdef file tr = (Ok r, tr').
Proof.
  intros Hsvc Hsdk.
  destruct (store_Files_StartUpload E fdef) as [e |] eqn:Hstart.
  - destruct (Upload_start_failure_run E ah fdef file tr e Hstart) as [r Hr].
    eauto.
  - rewrite (Upload_transfer E ah fdef file tr c Hsvc Hstart). cbn zeta.
    destruct (run_upload _ file) as [[[out |] [e |]] file']; eauto.
    exfalso. apply Hsdk. reflexivity.
Qed.

Lemma Upload_no_panic_witness :
  let E := sample_env (None, 0%Z) 1%Z None None None None in
  exists (r : (string * Z * option error) * (FileDef * byteStream))
         (tr' : list Event),
    Upload E sample_handler sample_record (mkByteStream [Byte.x01]) []
    = (Ok r, tr').
Proof.
  apply (Upload_no_panic (sample_env (None, 0%Z) 1%Z None None None None)
           sample_handler sample_record (mkByteStream [Byte.x01]) []
           sample_client).
  - reflexivity.
  - discriminate.
Defined.
